(** * TikTok-Streak: a shallow embedding of [tiktok_auto_forward.py]

    The script drives a browser through Selenium, so every function of
    interest is effectful.  The embedding keeps the control flow of the
    source (loops, early returns, [try]/[except]) and replaces the
    browser, the file system, the clock and the random generator by an
    environment that answers each primitive call with a value or with an
    exception.  Every primitive call, log line and sleep is recorded in
    a trace, so that statements such as "exactly three attempts are
    made" are statements about the trace of the run.  Writing a log line
    and sleeping are taken to succeed. *)

From Stdlib Require Import List Bool Arith NArith ZArith Lia String Ascii.
Import ListNotations.

Set Implicit Arguments.

(** ** Python strings *)

(** A Python [str] is a sequence of Unicode code points. *)
Module PyStr.

Local Open Scope N_scope.

Definition pystr := list N.

(** An ASCII literal of the source as a [str]. *)
Definition py (s : string) : pystr :=
  map N_of_ascii (list_ascii_of_string s).

Definition str_eqb (a b : pystr) : bool :=
  if list_eq_dec N.eq_dec a b then true else false.

(** Truth value of a [str]: the empty string is false. *)
Definition truthy (s : pystr) : bool :=
  match s with [] => false | _ :: _ => true end.

(** [str.isspace] on one code point, the table that [str.strip()] uses
    when it is called without argument (CPython's
    [_PyUnicode_IsWhitespace]). *)
Definition isspace (c : N) : bool :=
  ((9 <=? c) && (c <=? 13)) || ((28 <=? c) && (c <=? 32))
  || (c =? 133) || (c =? 160) || (c =? 5760)
  || ((8192 <=? c) && (c <=? 8202))
  || (c =? 8232) || (c =? 8233) || (c =? 8239) || (c =? 8287)
  || (c =? 12288).

Fixpoint dropwhile (p : N -> bool) (s : pystr) : pystr :=
  match s with
  | [] => []
  | c :: s' => if p c then dropwhile p s' else s
  end.

(** [s.lstrip()], [s.rstrip()] and [s.strip()] without argument. *)
Definition lstrip (s : pystr) : pystr := dropwhile isspace s.
Definition rstrip (s : pystr) : pystr := rev (dropwhile isspace (rev s)).
Definition strip (s : pystr) : pystr := rstrip (lstrip s).

(** [s.lstrip(chars)]: every leading code point that occurs in [chars]
    is removed. *)
Definition lstrip_chars (chars s : pystr) : pystr :=
  dropwhile (fun c => existsb (N.eqb c) chars) s.

(** [s.startswith(prefix)]. *)
Fixpoint startswith (s prefix : pystr) : bool :=
  match prefix, s with
  | [], _ => true
  | _ :: _, [] => false
  | p :: prefix', c :: s' => (c =? p) && startswith s' prefix'
  end.

(** [sub in s]: [sub] occurs in [s] as a contiguous substring. *)
Fixpoint contains (s sub : pystr) : bool :=
  startswith s sub ||
  match s with
  | [] => false
  | _ :: s' => contains s' sub
  end.

(** [str.lower] on the ASCII range.  The source calls the Unicode
    [str.lower], which the environment provides; this one serves
    concrete runs on ASCII text. *)
Definition ascii_lower (s : pystr) : pystr :=
  map (fun c => if (65 <=? c) && (c <=? 90) then c + 32 else c) s.

(** [int(s)] on ASCII decimal text: surrounding whitespace is dropped, a
    sign may come first, and the digits may be separated by single
    underscores; [None] stands for [ValueError].  The source calls the
    builtin [int], which also reads the decimal digits of other scripts
    and which the environment provides; this one serves concrete runs on
    ASCII text. *)
Definition is_digit (c : N) : bool := (48 <=? c) && (c <=? 57).

Fixpoint digits_value (acc : Z) (after_digit : bool) (s : pystr) : option Z :=
  match s with
  | [] => if after_digit then Some acc else None
  | c :: s' =>
      if is_digit c then
        digits_value (acc * 10 + Z.of_N (c - 48)) true s'
      else if (c =? 95) && after_digit then digits_value acc false s'
      else None
  end.

Definition ascii_int (s : pystr) : option Z :=
  match strip s with
  | 43 :: digits => digits_value 0 false digits
  | 45 :: digits => option_map Z.opp (digits_value 0 false digits)
  | digits => digits_value 0 false digits
  end.

End PyStr.
Import PyStr.

(** ** The account list: [load_users] *)

Definition at_sign : N := 64%N.
Definition hash_sign : N := 35%N.

(** The list comprehension of [load_users] (line 89), on the lines that
    iterating over the file yields:
    [[line.strip().lstrip('@') for line in f
      if line.strip() and not line.startswith('#')]]. *)
Definition load_users_lines (f : list pystr) : list pystr :=
  map (fun line => lstrip_chars [at_sign] (strip line))
      (filter (fun line => truthy (strip line)
                           && negb (startswith line [hash_sign])) f).

(** ** Dates and times *)

(** [datetime.time]: a time of day.  [datetime.date] is kept as its
    proleptic Gregorian ordinal ([date.toordinal()]). *)
Record time := mk_time
  { hour : Z; minute : Z; second : Z; microsecond : Z }.

Record datetime := mk_datetime { date : Z; tod : time }.

(** [timedelta], normalised as Python keeps it. *)
Record timedelta := mk_timedelta
  { td_days : Z; td_seconds : Z; td_microseconds : Z }.

(** ** Exceptions and results *)

(** An instance of Python's [Exception], named by its class.  The
    operator interrupt ([KeyboardInterrupt]) is not an [Exception] and is
    not part of this sequential model. *)
Inductive exn := Exn (cls : string).

Inductive res (A : Type) :=
| Val (a : A)
| Raise (e : exn).
Arguments Val {A} a.
Arguments Raise {A} e.

(** ** Configuration (lines 32-47) *)

Definition SEND_TIME : string := "21:00".
Definition COOKIES_FILE : string := "cookies.json".
Definition USERS_FILE : string := "list.txt".
Definition STREAK_MESSAGES : list pystr := [py "text 1"; py "text 2"; py "text 3"].
Definition MAX_RETRIES : nat := 3.
Definition WAIT_TIMEOUT : nat := 20.
Definition CAPTCHA_CHECK_ATTEMPTS : nat := 3.

(** The argument of [time.sleep], in milliseconds: a fixed duration, or
    one drawn by [random.uniform] between two bounds. *)
Inductive duration :=
| Millis (ms : N)
| Uniform (lo_ms hi_ms : N).

Definition TYPING_DELAY : duration := Uniform 50 150.

(** ** The environment: browser, files, clock, random generator *)

Definition driver := nat.
Definition elem := nat.

Inductive By := XPATH | CSS_SELECTOR | TAG_NAME.

Inductive key := ESCAPE | RETURN | Char (c : N).

(** A Python [float]: a finite value [m * 2^e], an infinity or a NaN. *)
Inductive pyfloat :=
| Finite (m e : Z)
| Infinity (negative : bool)
| NaN.

(** What [json.load] returns: [None], a [bool], an [int], a [float], a
    [str], a [list], or a [dict] with one entry per key. *)
#[warnings="-register-all"]
Inductive json :=
| JNull
| JBool (b : bool)
| JInt (z : Z)
| JFloat (f : pyfloat)
| JStr (s : pystr)
| JArr (items : list json)
| JObj (fields : list (pystr * json)).

(** One item that iterating over the loaded cookie file yields: a
    [dict] when the file is an array of objects, but any value can
    come. *)
Definition cookie := json.

(** [fields.get(k)] and [k in fields] on the entries of a [dict]. *)
Fixpoint dict_lookup (k : pystr) (fields : list (pystr * json)) : option json :=
  match fields with
  | [] => None
  | (k', v) :: rest => if str_eqb k' k then Some v else dict_lookup k rest
  end.

Definition dict_get (fields : list (pystr * json)) (k : string)
  (default : json) : json :=
  match dict_lookup (py k) fields with
  | Some v => v
  | None => default
  end.

(** The argument of [driver.add_cookie]. *)
Record cookie_dict := mk_cookie_dict
  { cd_name : json; cd_value : json; cd_domain : json;
    cd_path : option json; cd_expiry : option Z;
    cd_secure : option json; cd_httpOnly : option json }.

(** The primitive calls of the script, indexed by the type of their
    result. *)
Inductive op : Type -> Type :=
| ReadCookies (path : string) : op (list cookie)
| ReadLines (path : string) : op (list pystr)
| Now : op datetime
| RandomChoice (n : nat) : op nat
| Chrome : op driver
| ExecuteCdpCmd (d : driver) (cmd : string) : op unit
| Get (d : driver) (url : pystr) : op unit
| AddCookie (d : driver) (c : cookie_dict) : op unit
| FindElement (d : driver) (b : By) (selector : string) : op elem
| WaitPresence (d : driver) (timeout : nat) (b : By) (selector : string) : op elem
| Text (e : elem) : op pystr
| IsDisplayed (e : elem) : op bool
| Click (e : elem) : op unit
| SendKeys (e : elem) (k : key) : op unit
| ExecuteScript (d : driver) (script : string) (e : elem) : op unit
| PerformSendKeys (d : driver) (k : key) : op unit
| PerformMoveClick (d : driver) (e : elem) : op unit
| SaveScreenshot (d : driver) (file : pystr) : op bool
| Quit (d : driver) : op unit
| JobDue : op bool.

Inductive level := DEBUG | INFO | WARNING | ERROR.

(** The value substituted in a placeholder of an f-string. *)
Inductive arg :=
| AStr (s : pystr)
| ALit (s : string)
| ANat (n : nat)
| ATime (t : datetime)
| AExn (e : exn)
| AJson (j : json).

(** What a run does, in order: primitive calls with their answers, lines
    sent to [logger], lines written by [log_activity], lines printed, and
    sleeps.  A log line is its f-string template (decorative symbols left
    out) and the values of its placeholders. *)
Inductive event :=
| EvCall (A : Type) (o : op A) (r : res A)
| EvLog (l : level) (template : string) (args : list arg)
| EvActivity (l : level) (template : string) (args : list arg)
| EvPrint (template : string) (args : list arg)
| EvSleep (d : duration).
Arguments EvCall {A} o r.

(** An environment answers every primitive call from its current state
    [W], and provides the builtins [str.lower] and [int] on a [str]
    ([None] when [int] raises [ValueError]). *)
Class Env (W : Type) := {
  handle : forall A, op A -> W -> res A * W;
  str_lower : pystr -> pystr;
  int_of_str : pystr -> option Z
}.

(** ** The effect monad *)

(** The outcome of running a computation: a value or an exception, the
    state of the environment, and the events emitted.  The state and the
    events survive an exception, as in Python. *)
Record out (W A : Type) := Out
  { result : res A; world : W; trace : list event }.

Definition M (W A : Type) := W -> out W A.

Section Monad.
Context {W : Type}.

Definition ret {A} (a : A) : M W A := fun w => Out (Val a) w [].

Definition raise {A} (e : exn) : M W A := fun w => Out (Raise e) w [].

Definition bind {A B} (m : M W A) (k : A -> M W B) : M W B :=
  fun w =>
    match m w with
    | Out (Val a) w1 t1 =>
        match k a w1 with
        | Out r w2 t2 => Out r w2 (t1 ++ t2)
        end
    | Out (Raise e) w1 t1 => Out (Raise e) w1 t1
    end.

(** [try: m  except ...: h e]. *)
Definition try_except {A} (m : M W A) (h : exn -> M W A) : M W A :=
  fun w =>
    match m w with
    | Out (Val a) w1 t1 => Out (Val a) w1 t1
    | Out (Raise e) w1 t1 =>
        match h e w1 with
        | Out r w2 t2 => Out r w2 (t1 ++ t2)
        end
    end.

(** [try: m  finally: f]; an exception of [f] replaces the outcome of
    [m]. *)
Definition try_finally {A} (m : M W A) (f : M W unit) : M W A :=
  fun w =>
    match m w with
    | Out r w1 t1 =>
        match f w1 with
        | Out (Val _) w2 t2 => Out r w2 (t1 ++ t2)
        | Out (Raise e) w2 t2 => Out (Raise e) w2 (t1 ++ t2)
        end
    end.

Definition emit (ev : event) : M W unit := fun w => Out (Val tt) w [ev].

Definition call `{Env W} {A} (o : op A) : M W A :=
  fun w => let (r, w') := handle o w in Out r w' [EvCall o r].

End Monad.

Declare Scope py_scope.
Delimit Scope py_scope with py.
Notation "x <- m ;; k" := (bind m (fun x => k))
  (at level 61, m at next level, right associativity) : py_scope.
Notation "m ;; k" := (bind m (fun _ => k))
  (at level 61, right associativity) : py_scope.
Open Scope py_scope.

Definition exn_is (cls : string) (e : exn) : bool :=
  match e with Exn c => String.eqb c cls end.

(** ** Scheduler arithmetic (lines 506-514 and 545-550) *)

(** [a < b] on [datetime.time] objects: the tuples
    (hour, minute, second, microsecond) are compared. *)
Definition time_lt (a b : time) : bool :=
  ((hour a <? hour b)
   || ((hour a =? hour b)
       && ((minute a <? minute b)
           || ((minute a =? minute b)
               && ((second a <? second b)
                   || ((second a =? second b)
                       && (microsecond a <? microsecond b)))))))%Z.

Definition MAXORDINAL : Z := 3652059.

(** [datetime.combine(d, t)]. *)
Definition datetime_combine (d : Z) (t : time) : datetime := mk_datetime d t.

(** The [timedelta] constructor carries microseconds into seconds and
    seconds into days. *)
Definition td_normalise (d s us : Z) : timedelta :=
  (let s' := s + us / 1000000 in
   mk_timedelta (d + s' / 86400) (s' mod 86400) (us mod 1000000))%Z.

Definition timedelta_new (days hours minutes seconds microseconds : Z)
  : timedelta :=
  td_normalise days (hours * 3600 + minutes * 60 + seconds)%Z microseconds.

Definition timedelta_add (a b : timedelta) : timedelta :=
  td_normalise (td_days a + td_days b)%Z (td_seconds a + td_seconds b)%Z
               (td_microseconds a + td_microseconds b)%Z.

(** [dt + other] as [datetime.__add__] computes it: through the ordinal
    of the date, with [OverflowError] past year 9999. *)
Definition datetime_add (dt : datetime) (other : timedelta) : res datetime :=
  (let delta :=
     timedelta_add
       (timedelta_new (date dt) (hour (tod dt)) (minute (tod dt))
                      (second (tod dt)) (microsecond (tod dt)))
       other in
   let hour := td_seconds delta / 3600 in
   let rem := td_seconds delta mod 3600 in
   let minute := rem / 60 in
   let second := rem mod 60 in
   if (0 <? td_days delta) && (td_days delta <=? MAXORDINAL) then
     Val (datetime_combine (td_days delta)
            (mk_time hour minute second (td_microseconds delta)))
   else Raise (Exn "OverflowError"))%Z.

(** [target_time = dt_time(hour, minute)] for [SEND_TIME = "21:00"]. *)
Definition target_time : time := mk_time 21 0 0 0.

(** Lines 507-514, at scheduler start. *)
Definition next_run_at_start (now : datetime) (target_time : time)
  : res datetime :=
  let today_run := datetime_combine (date now) target_time in
  if time_lt (tod now) target_time then Val today_run
  else datetime_add today_run (timedelta_new 1 0 0 0 0).

(** Lines 546-550, in the heartbeat. *)
Definition next_run_at_heartbeat (now : datetime) (target_time : time)
  : res datetime :=
  if time_lt (tod now) target_time then
    Val (datetime_combine (date now) target_time)
  else
    datetime_add (datetime_combine (date now) target_time)
                 (timedelta_new 1 0 0 0 0).

(** [(a - b).total_seconds() >= 900], on whole microseconds. *)
Definition elapsed_us (a b : datetime) : Z :=
  (((date a - date b) * 86400
    + (hour (tod a) - hour (tod b)) * 3600
    + (minute (tod a) - minute (tod b)) * 60
    + (second (tod a) - second (tod b))) * 1000000
   + (microsecond (tod a) - microsecond (tod b)))%Z.

(** The rule of the specification: today's date with the configured time
    of day when the current time of day is strictly before it, tomorrow's
    date with the configured time of day otherwise.  Times of day are
    compared as microseconds since midnight. *)
Definition us_of_day (t : time) : Z :=
  (((hour t * 60 + minute t) * 60 + second t) * 1000000 + microsecond t)%Z.


Definition valid_time (t : time) : Prop :=
  (0 <= hour t < 24 /\ 0 <= minute t < 60 /\ 0 <= second t < 60
   /\ 0 <= microsecond t < 1000000)%Z.

(** ** The script *)

Definition rule (n : nat) : string := string_of_list_ascii (repeat "="%char n).

Record WebDriverWait := mk_wait { wait_driver : driver; wait_timeout : nat }.

Section Script.
Context {W : Type} `{Env W}.

Definition sleep (d : duration) : M W unit := emit (EvSleep d).

(** A pure computation that can raise, run in the script. *)
Definition lift_res {A} (r : res A) : M W A :=
  match r with Val a => ret a | Raise e => raise e end.

(** [logger.debug/info/warning/error(f"...")]. *)
Definition logger (l : level) (template : string) (args : list arg) : M W unit :=
  emit (EvLog l template args).

(** [log_activity] (lines 97-109): a line appended to the log file, then
    the same message through [logger] at level error, warning or info.
    The log file is taken to be writable: the [open] and [write] of
    lines 101-102 are recorded as one event and their [OSError] is not
    modelled, so that nothing below speaks of a run whose log file
    cannot be written. *)
Definition log_activity (template : string) (args : list arg) (l : level)
  : M W unit :=
  emit (EvActivity l template args);;
  match l with
  | ERROR => logger ERROR template args
  | WARNING => logger WARNING template args
  | _ => logger INFO template args
  end.

(** *** File operations (lines 72-94) *)

Definition load_cookies : M W (list cookie) :=
  try_except
    (cookies <- call (ReadCookies COOKIES_FILE);;
     logger INFO "Loaded {len(cookies)} cookies from {COOKIES_FILE}"
            [ANat (List.length cookies); ALit COOKIES_FILE];;
     ret cookies)
    (fun e =>
       if exn_is "FileNotFoundError" e then
         logger ERROR "Cookie file not found: {COOKIES_FILE}" [ALit COOKIES_FILE];;
         raise e
       else if exn_is "JSONDecodeError" e then
         logger ERROR "Invalid JSON in {COOKIES_FILE}" [ALit COOKIES_FILE];;
         raise e
       else raise e).

Definition load_users : M W (list pystr) :=
  try_except
    (f <- call (ReadLines USERS_FILE);;
     let users := load_users_lines f in
     logger INFO "Loaded {len(users)} users from {USERS_FILE}"
            [ANat (List.length users); ALit USERS_FILE];;
     ret users)
    (fun e =>
       if exn_is "FileNotFoundError" e then
         logger ERROR "User file not found: {USERS_FILE}" [ALit USERS_FILE];;
         raise e
       else raise e).

(** *** Browser setup (lines 116-186) *)

(** The [Options] object is built without any call that can fail; the
    model starts at [webdriver.Chrome(options=options)]. *)
Definition setup_driver : M W driver :=
  logger INFO "Setting up Chrome driver..." [];;
  d <- call Chrome;;
  call (ExecuteCdpCmd d "Page.addScriptToEvaluateOnNewDocument");;
  logger INFO "Chrome driver initialized" [];;
  ret d.

(** [int(x)] on a loaded value: a [float] is truncated towards zero,
    an infinity raises [OverflowError] and a NaN [ValueError]; a [str]
    is parsed; [None], a [list] and a [dict] raise [TypeError]. *)
Definition py_int (x : json) : res Z :=
  match x with
  | JInt z => Val z
  | JBool b => Val (if b then 1 else 0)%Z
  | JFloat (Finite m e) =>
      Val (if (0 <=? e)%Z then m * 2 ^ e else Z.quot m (2 ^ (- e)))%Z
  | JFloat (Infinity _) => Raise (Exn "OverflowError")
  | JFloat NaN => Raise (Exn "ValueError")
  | JStr s =>
      match int_of_str s with
      | Some z => Val z
      | None => Raise (Exn "ValueError")
      end
  | JNull | JArr _ | JObj _ => Raise (Exn "TypeError")
  end.

(** Lines 161-173.  On an item that is not a [dict] the first
    [cookie.get] raises [AttributeError]; on a [dict] only the
    conversion of the expiry can raise. *)
Definition make_cookie_dict (cookie : cookie) : M W cookie_dict :=
  match cookie with
  | JObj fields =>
      expiry <- match dict_lookup (py "expirationDate") fields with
                | None => ret None
                | Some v => z <- lift_res (py_int v);; ret (Some z)
                end;;
      ret (mk_cookie_dict
             (dict_get fields "name" JNull)
             (dict_get fields "value" JNull)
             (dict_get fields "domain" (JStr (py ".tiktok.com")))
             (dict_lookup (py "path") fields)
             expiry
             (dict_lookup (py "secure") fields)
             (dict_lookup (py "httpOnly") fields))
  | _ => raise (Exn "AttributeError")
  end.

(** The handler of lines 177-178: its f-string evaluates
    [cookie.get('name')] again, which raises [AttributeError] out of the
    handler on an item that is not a [dict]. *)
Definition cookie_warning (cookie : cookie) (e : exn) : M W unit :=
  match cookie with
  | JObj fields =>
      logger WARNING "Failed to add cookie {cookie.get('name')}: {e}"
             [AJson (dict_get fields "name" JNull); AExn e]
  | _ => raise (Exn "AttributeError")
  end.

Fixpoint add_cookies (d : driver) (cookies : list cookie) : M W unit :=
  match cookies with
  | [] => ret tt
  | c :: rest =>
      try_except
        (cookie_dict <- make_cookie_dict c;;
         call (AddCookie d cookie_dict))
        (cookie_warning c);;
      add_cookies d rest
  end.

Definition load_cookies_to_driver (d : driver) (cookies : list cookie)
  : M W unit :=
  call (Get d (py "https://www.tiktok.com"));;
  sleep (Millis 2000%N);;
  add_cookies d cookies;;
  logger INFO "Cookies loaded" [].

Fixpoint human_type (element : elem) (text : pystr) : M W unit :=
  match text with
  | [] => ret tt
  | char :: rest =>
      call (SendKeys element (Char char));;
      sleep TYPING_DELAY;;
      human_type element rest
  end.

(** *** Captcha handling (lines 193-231) *)

Definition captcha_indicators : list pystr :=
  [py "Drag the slider"; py "Verify you are human"; py "puzzle";
   py "verification"].

(** [any(indicator.lower() in page_text for indicator in ...)] where
    [page_text] is the lowered text of the page. *)
Definition captcha_found (page_text : pystr) : bool :=
  existsb (fun indicator => contains page_text (str_lower indicator))
          captcha_indicators.

Definition close_selectors : list string :=
  ["//button[contains(@aria-label, 'Close')]";
   "//button[contains(@class, 'close')]";
   "//*[name()='svg' and contains(@class, 'close')]/parent::button";
   "//button[text()='×']"]%string.

(** The loop over [close_selectors].  [Some b]: the function returned
    [b] from inside the loop; [None]: the loop ran to its end. *)
Fixpoint close_loop (d : driver) (selectors : list string)
  : M W (option bool) :=
  match selectors with
  | [] => ret None
  | selector :: rest =>
      r <- try_except
             (close_btn <- call (FindElement d XPATH selector);;
              shown <- call (IsDisplayed close_btn);;
              if shown then
                call (Click close_btn);;
                logger INFO "Closed captcha popup" [];;
                sleep (Millis 2000%N);;
                ret (Some true)
              else ret None)
             (fun _ => ret None);;
      match r with
      | Some b => ret (Some b)
      | None => close_loop d rest
      end
  end.

Definition check_and_close_captcha (d : driver) : M W bool :=
  try_except
    (body <- call (FindElement d TAG_NAME "body");;
     text <- call (Text body);;
     let page_text := str_lower text in
     if captcha_found page_text then
       logger WARNING "CAPTCHA detected! Attempting to close..." [];;
       r <- close_loop d close_selectors;;
       match r with
       | Some b => ret b
       | None =>
           r' <- try_except
                   (call (PerformSendKeys d ESCAPE);;
                    logger INFO "Pressed ESC to close captcha" [];;
                    sleep (Millis 2000%N);;
                    ret (Some true))
                   (fun _ => ret None);;
           match r' with
           | Some b => ret b
           | None => ret false
           end
       end
     else ret false)
    (fun _ => ret false).

(** *** Message button (lines 238-311) *)

(** [wait.until(EC.presence_of_element_located((by, selector)))]. *)
Definition until_presence (wait : WebDriverWait) (b : By) (selector : string)
  : M W elem :=
  call (WaitPresence (wait_driver wait) (wait_timeout wait) b selector).

Definition xpath_selectors : list string :=
  ["//button[@data-e2e='message-button']";
   "//button[contains(@class, 'TUXButton') and @data-e2e='message-button']";
   "//button[contains(@class, 'TUXButton--secondary') and @data-e2e='message-button']";
   "//div[@class='TUXButton-label' and text()='Message']/ancestor::button";
   "//button[@data-e2e='user-page-message-button']";
   "//button[.//div[text()='Message']]";
   "//button[contains(text(), 'Message')]"]%string.

Definition css_selectors : list string :=
  ["button[data-e2e='message-button']";
   "button.TUXButton[data-e2e='message-button']"]%string.

(** [for i, selector in enumerate(xpath_selectors, 1)]; a [WebElement]
    is truthy, so [button and button.is_displayed()] is
    [button.is_displayed()]. *)
Fixpoint find_by_xpath (wait : WebDriverWait) (i : nat)
  (selectors : list string) : M W (option elem) :=
  match selectors with
  | [] => ret None
  | selector :: rest =>
      r <- try_except
             (logger DEBUG "  Trying selector #{i}..." [ANat i];;
              button <- until_presence wait XPATH selector;;
              shown <- call (IsDisplayed button);;
              if shown then
                logger INFO "Found Message button (selector #{i})" [ANat i];;
                ret (Some button)
              else ret None)
             (fun _ => ret None);;
      match r with
      | Some button => ret (Some button)
      | None => find_by_xpath wait (S i) rest
      end
  end.

Fixpoint find_by_css (wait : WebDriverWait) (selectors : list string)
  : M W (option elem) :=
  match selectors with
  | [] => ret None
  | selector :: rest =>
      r <- try_except
             (button <- until_presence wait CSS_SELECTOR selector;;
              shown <- call (IsDisplayed button);;
              if shown then
                logger INFO "Found Message button (CSS)" [];;
                ret (Some button)
              else ret None)
             (fun _ => ret None);;
      match r with
      | Some button => ret (Some button)
      | None => find_by_css wait rest
      end
  end.

Definition find_message_button (d : driver) (wait : WebDriverWait)
  : M W (option elem) :=
  logger INFO "Searching for Message button..." [];;
  r <- find_by_xpath wait 1 xpath_selectors;;
  match r with
  | Some button => ret (Some button)
  | None =>
      r' <- find_by_css wait css_selectors;;
      match r' with
      | Some button => ret (Some button)
      | None =>
          logger ERROR "Message button not found" [];;
          ret None
      end
  end.

(** The list [methods] of [click_message_button]: a name and a thunk. *)
Definition click_methods (d : driver) (button : elem)
  : list (string * M W unit) :=
  [("Normal click"%string, call (Click button));
   ("Scroll + click"%string,
    call (ExecuteScript d "arguments[0].scrollIntoView({block: 'center'});" button);;
    sleep (Millis 500%N);;
    call (Click button));
   ("JavaScript click"%string,
    call (ExecuteScript d "arguments[0].click();" button));
   ("ActionChains"%string, call (PerformMoveClick d button))].

Fixpoint click_loop (methods : list (string * M W unit)) : M W bool :=
  match methods with
  | [] =>
      logger ERROR "All click methods failed" [];;
      ret false
  | (method_name, method_func) :: rest =>
      r <- try_except
             (logger DEBUG "  Trying: {method_name}" [ALit method_name];;
              method_func;;
              logger INFO "Clicked via {method_name}" [ALit method_name];;
              sleep (Millis 2000%N);;
              ret true)
             (fun e =>
                logger DEBUG "  {method_name} failed: {type(e).__name__}"
                       [ALit method_name; AExn e];;
                ret false);;
      if r then ret true else click_loop rest
  end.

Definition click_message_button (d : driver) (button : option elem)
  : M W bool :=
  match button with
  | None => ret false
  | Some b =>
      logger INFO "Clicking Message button..." [];;
      click_loop (click_methods d b)
  end.

(** *** The per-account workflow (lines 318-398) *)

(** [random.choice(seq)]: [IndexError] on an empty sequence, otherwise
    [seq[self._randbelow(len(seq))]].  The generator answers below
    [len(seq)]; the answer of the environment is taken modulo [len(seq)]
    so that no environment can answer out of range. *)
Definition random_choice (seq : list pystr) : M W pystr :=
  match seq with
  | [] => raise (Exn "IndexError")
  | _ =>
      i <- call (RandomChoice (List.length seq));;
      ret (nth (i mod List.length seq) seq [])
  end.

(** [for _ in range(CAPTCHA_CHECK_ATTEMPTS)] (lines 332-336). *)
Fixpoint captcha_guard (d : driver) (n : nat) : M W unit :=
  match n with
  | O => ret tt
  | S n' =>
      found <- check_and_close_captcha d;;
      if found then sleep (Millis 2000%N);; captcha_guard d n'
      else ret tt
  end.

Definition input_selectors : list string :=
  ["//div[@contenteditable='true']";
   "//div[@data-e2e='dm-input']";
   "//div[@role='textbox']"]%string.

(** The loop of lines 361-369.  The variable [message_input] is assigned
    as soon as the wait returns and keeps that element when
    [is_displayed()] is false or raises, so the [try] block is split at
    the assignment; both halves have the handler [continue]. *)
Fixpoint find_input (wait : WebDriverWait) (selectors : list string)
  (message_input : option elem) : M W (option elem) :=
  match selectors with
  | [] => ret message_input
  | selector :: rest =>
      found <- try_except
                 (e <- until_presence wait XPATH selector;; ret (Some e))
                 (fun _ => ret None);;
      match found with
      | None => find_input wait rest message_input
      | Some e =>
          shown <- try_except
                     (shown <- call (IsDisplayed e);;
                      if shown then
                        logger INFO "Found message input" [];; ret true
                      else ret false)
                     (fun _ => ret false);;
          if shown then ret (Some e) else find_input wait rest (Some e)
      end
  end.

(** The body of the [try] block, lines 320-390. *)
Definition send_streak_body (d : driver) (username : pystr) : M W bool :=
  let username := lstrip_chars [at_sign] username in
  logger INFO (rule 60) [];;
  logger INFO "Processing @{username}" [AStr username];;
  logger INFO (rule 60) [];;
  let profile_url := py "https://www.tiktok.com/@" ++ username in
  logger INFO "Navigating to {profile_url}" [AStr profile_url];;
  call (Get d profile_url);;
  sleep (Millis 5000%N);;
  captcha_guard d CAPTCHA_CHECK_ATTEMPTS;;
  let wait := mk_wait d WAIT_TIMEOUT in
  message_button <- find_message_button d wait;;
  match message_button with
  | None =>
      call (SaveScreenshot d (py "debug_no_button_" ++ username ++ py ".png"));;
      ret false
  | Some _ =>
      clicked <- click_message_button d message_button;;
      if negb clicked then
        call (SaveScreenshot d
                (py "debug_click_failed_" ++ username ++ py ".png"));;
        ret false
      else
        check_and_close_captcha d;;
        logger INFO "Searching for message input..." [];;
        message_input <- find_input wait input_selectors None;;
        match message_input with
        | None =>
            logger ERROR "Message input not found" [];;
            call (SaveScreenshot d
                    (py "debug_no_input_" ++ username ++ py ".png"));;
            ret false
        | Some input =>
            call (Click input);;
            sleep (Millis 500%N);;
            streak_message <- random_choice STREAK_MESSAGES;;
            logger INFO "Typing: '{streak_message}'" [AStr streak_message];;
            human_type input streak_message;;
            sleep (Millis 1000%N);;
            call (SendKeys input RETURN);;
            logger INFO "Message sent" [];;
            sleep (Millis 2000%N);;
            logger INFO "Success @{username}" [AStr username];;
            ret true
        end
  end.

(** The handler [except Exception as e] of lines 392-398. *)
Definition send_streak_handler (d : driver) (username : pystr) (e : exn)
  : M W bool :=
  let username := lstrip_chars [at_sign] username in
  logger ERROR "Error @{username}: {e}" [AStr username; AExn e];;
  try_except
    (call (SaveScreenshot d (py "debug_error_" ++ username ++ py ".png"));;
     ret tt)
    (fun _ => ret tt);;
  ret false.

Definition send_streak_to_user (d : driver) (username : pystr) : M W bool :=
  try_except (send_streak_body d username) (send_streak_handler d username).

(** *** The batch run (lines 405-473) *)

(** The inner loop [for attempt in range(MAX_RETRIES)] of lines 436-447,
    threading the two counters. *)
Fixpoint attempt_loop (d : driver) (username : pystr) (attempts : list nat)
  (success_count fail_count : nat) : M W (nat * nat) :=
  match attempts with
  | [] => ret (success_count, fail_count)
  | attempt :: rest =>
      ok <- send_streak_to_user d username;;
      if ok then
        log_activity "@{username} - SUCCESS" [AStr username] INFO;;
        ret (S success_count, fail_count)
      else if attempt <? MAX_RETRIES - 1 then
        log_activity "@{username} - Retry {attempt+1}/{MAX_RETRIES}"
                     [AStr username; ANat (attempt + 1); ANat MAX_RETRIES]
                     WARNING;;
        sleep (Millis 5000%N);;
        attempt_loop d username rest success_count fail_count
      else
        log_activity "@{username} - FAILED" [AStr username] ERROR;;
        attempt_loop d username rest success_count (S fail_count)
  end.

Definition INTER_USER_DELAY : duration := Uniform 8000 15000.

(** The outer loop [for username in users] of lines 435-453; [users] is
    the whole list, which the test [username != users[-1]] reads. *)
Fixpoint users_loop (d : driver) (users : list pystr) (todo : list pystr)
  (success_count fail_count : nat) : M W (nat * nat) :=
  match todo with
  | [] => ret (success_count, fail_count)
  | username :: rest =>
      counts <- attempt_loop d username (seq 0 MAX_RETRIES)
                             success_count fail_count;;
      (if negb (str_eqb username (last users [])) then
         logger INFO "Waiting {delay:.1f}s before next user..." [];;
         sleep INTER_USER_DELAY
       else ret tt);;
      users_loop d users rest (fst counts) (snd counts)
  end.

(** Lines 426-460, once the browser is up. *)
Definition run_batch (d : driver) (cookies : list cookie) (users : list pystr)
  : M W unit :=
  load_cookies_to_driver d cookies;;
  call (Get d (py "https://www.tiktok.com"));;
  sleep (Millis 3000%N);;
  log_activity "Bot ready. Processing {len(users)} users..."
               [ANat (List.length users)] INFO;;
  counts <- users_loop d users users 0 0;;
  log_activity (rule 70) [] INFO;;
  log_activity "DAILY RUN COMPLETED" [] INFO;;
  log_activity "Results: {success_count}/{len(users)} successful"
               [ANat (fst counts); ANat (List.length users)] INFO;;
  log_activity "Success: {success_count}, Failed: {fail_count}"
               [ANat (fst counts); ANat (snd counts)] INFO;;
  log_activity (rule 70) [] INFO.

(** The handler [except Exception as e] of lines 462-465. *)
Definition critical_error (e : exn) : M W unit :=
  log_activity "Critical error: {e}" [AExn e] ERROR;;
  log_activity "{traceback.format_exc()}" [AExn e] ERROR.

(** The [finally] clause when [driver] is set (lines 468-473). *)
Definition close_browser (d : driver) : M W unit :=
  try_except
    (call (Quit d);;
     log_activity "Browser closed" [] INFO)
    (fun _ => ret tt).

(** [run_streak_bot].  The variable [driver] is [None] until
    [setup_driver] has returned, so the [try] block is cut there: before
    the cut the [finally] clause does nothing, after it the clause closes
    the browser.  [None] from the first part is the early [return] of
    line 420. *)
Definition run_streak_bot : M W unit :=
  log_activity (rule 70) [] INFO;;
  now <- call Now;;
  log_activity "DAILY RUN STARTED - {datetime.now()}" [ATime now] INFO;;
  log_activity (rule 70) [] INFO;;
  try_except
    (started <-
       (cookies <- load_cookies;;
        users <- load_users;;
        match users with
        | [] =>
            log_activity "No users in list.txt" [] ERROR;;
            ret None
        | _ :: _ =>
            d <- setup_driver;;
            ret (Some (cookies, users, d))
        end);;
     match started with
     | None => ret tt
     | Some (cookies, users, d) =>
         try_finally
           (try_except (run_batch d cookies users) critical_error)
           (close_browser d)
     end)
    critical_error.

(** *** The scheduler loop (lines 537-577) *)

(** One turn of [while True].  [schedule.run_pending()] runs the job
    when the [schedule] library finds it due, which the environment
    answers ([JobDue]).  The result is the value of [last_check] after
    the turn.  The hour and minute counts of the status line come from
    floating-point arithmetic and are not among its recorded values. *)
Definition scheduler_turn (target_time : time) (last_check : datetime)
  : M W datetime :=
  try_except
    (due <- call JobDue;;
     (if due then run_streak_bot else ret tt);;
     now <- call Now;;
     last_check' <-
       (if (900000000 <=? elapsed_us now last_check)%Z then
          next_run <- lift_res (next_run_at_heartbeat now target_time);;
          emit (EvPrint
                  "[{now}] Scheduler active. Next run in {hours}h {minutes}m ({next_run})"
                  [ATime now; ATime next_run]);;
          log_activity "Scheduler heartbeat. Next run: {next_run}"
                       [ATime next_run] INFO;;
          ret now
        else ret last_check);;
     sleep (Millis 60000%N);;
     ret last_check')
    (fun e =>
       emit (EvPrint "Scheduler error: {e}" [AExn e]);;
       log_activity "Scheduler error: {e}" [AExn e] ERROR;;
       emit (EvPrint "Retrying in 60 seconds..." []);;
       sleep (Millis 60000%N);;
       ret last_check).

End Script.

(** ** A table-driven environment for concrete runs *)

(** A page whose answers are fixed, in a browser whose next [site_down]
    navigations to a profile fail. *)
Record site := mk_site
  { site_down : nat;
    site_now : datetime;
    site_cookies : res (list cookie);
    site_lines : res (list pystr);
    site_text : res pystr;
    site_find : By -> string -> res elem;
    site_displayed : elem -> res bool;
    site_click : elem -> res unit;
    site_script : string -> res unit;
    site_escape : res unit;
    site_move_click : res unit;
    site_job_due : bool }.

Definition site_set_down (n : nat) (s : site) : site :=
  mk_site n (site_now s) (site_cookies s) (site_lines s) (site_text s)
          (site_find s) (site_displayed s) (site_click s) (site_script s)
          (site_escape s) (site_move_click s) (site_job_due s).

Definition home_url : pystr := py "https://www.tiktok.com".

Definition site_handle (A : Type) (o : op A) (s : site) : res A * site :=
  match o in op T return res T * site with
  | ReadCookies _ => (site_cookies s, s)
  | ReadLines _ => (site_lines s, s)
  | Now => (Val (site_now s), s)
  | RandomChoice _ => (Val 0, s)
  | Chrome => (Val 1, s)
  | ExecuteCdpCmd _ _ => (Val tt, s)
  | Get _ url =>
      if str_eqb url home_url then (Val tt, s)
      else match site_down s with
           | O => (Val tt, s)
           | S n => (Raise (Exn "WebDriverException"), site_set_down n s)
           end
  | AddCookie _ _ => (Val tt, s)
  | FindElement _ TAG_NAME _ => (Val 0, s)
  | FindElement _ b selector => (site_find s b selector, s)
  | WaitPresence _ _ b selector => (site_find s b selector, s)
  | Text _ => (site_text s, s)
  | IsDisplayed e => (site_displayed s e, s)
  | Click e => (site_click s e, s)
  | SendKeys _ _ => (Val tt, s)
  | ExecuteScript _ script _ => (site_script s script, s)
  | PerformSendKeys _ _ => (site_escape s, s)
  | PerformMoveClick _ _ => (site_move_click s, s)
  | SaveScreenshot _ _ => (Val true, s)
  | Quit _ => (Val tt, s)
  | JobDue => (Val (site_job_due s), s)
  end.

#[export] Instance site_env : Env site :=
  {| handle := site_handle; str_lower := ascii_lower;
     int_of_str := ascii_int |}.

Definition noon : datetime := mk_datetime 739000 (mk_time 12 0 0 0).

Definition NoSuchElement : exn := Exn "NoSuchElementException".
Definition TimeoutException : exn := Exn "TimeoutException".

(** A profile page that shows a message button (element 7) under the
    first XPath expression and a message input (element 9). *)
Definition profile_page (down : nat) (lines : list pystr) : site :=
  mk_site down noon (Val []) (Val lines) (Val (py "Profile of the user"))
    (fun b selector =>
       if String.eqb selector "//button[@data-e2e='message-button']"
       then Val 7
       else if String.eqb selector "//div[@contenteditable='true']"
       then Val 9
       else Raise NoSuchElement)
    (fun _ => Val true) (fun _ => Val tt) (fun _ => Val tt)
    (Val tt) (Val tt) true.

(** A page covered by a challenge that offers no close button and on
    which the ESC key press fails. *)
Definition challenge_page : site :=
  mk_site 0 noon (Val []) (Val []) (Val (py "Solve the PUZZLE to continue"))
    (fun _ _ => Raise NoSuchElement)
    (fun _ => Val true) (fun _ => Val tt) (fun _ => Val tt)
    (Raise (Exn "WebDriverException")) (Val tt) true.

(** A browser that answers nothing: no element is ever found. *)
Definition blank_page (lines : list pystr) : site :=
  mk_site 0 noon (Val []) (Val lines) (Val (py ""))
    (fun _ _ => Raise TimeoutException)
    (fun _ => Val true) (fun _ => Val tt) (fun _ => Val tt)
    (Val tt) (Val tt) true.

(** ** Vocabulary of the specification *)





(** The events by which the batch is observed: the start of a workflow
    run for an account, its success, the lines of the activity log and
    the pause between two accounts. *)
Definition started (username : pystr) : event :=
  EvLog INFO "Processing @{username}" [AStr (lstrip_chars [at_sign] username)].

Definition succeeded (username : pystr) : event :=
  EvLog INFO "Success @{username}" [AStr (lstrip_chars [at_sign] username)].

Definition is_started (ev : event) : bool :=
  match ev with
  | EvLog INFO template _ => String.eqb template "Processing @{username}"
  | _ => false
  end.

Definition is_marker (ev : event) : bool :=
  match ev with
  | EvLog INFO template _ =>
      String.eqb template "Processing @{username}"
      || String.eqb template "Success @{username}"
  | EvActivity _ _ _ => true
  | EvSleep (Uniform 8000 15000) => true
  | _ => false
  end.

Definition markers (t : list event) : list event := filter is_marker t.

(** The number of workflow runs started in a trace. *)
Definition attempts_in (t : list event) : nat :=
  List.length (filter is_started t).

Definition retry_line (username : pystr) (attempt : nat) : event :=
  EvActivity WARNING "@{username} - Retry {attempt+1}/{MAX_RETRIES}"
             [AStr username; ANat (attempt + 1); ANat MAX_RETRIES].

Definition success_line (username : pystr) : event :=
  EvActivity INFO "@{username} - SUCCESS" [AStr username].

Definition failed_line (username : pystr) : event :=
  EvActivity ERROR "@{username} - FAILED" [AStr username].

(** What [count] failed attempts followed by a retry leave among the
    markers, the first of them being attempt number [first]. *)
Fixpoint failed_attempts (username : pystr) (first count : nat) : list event :=
  match count with
  | O => []
  | S c => started username :: retry_line username first
           :: failed_attempts username (S first) c
  end.

(** The markers of an account that took [k] attempts: [k - 1] failed
    attempts with their retry lines, then the last attempt, which either
    succeeds and is recorded as a success, or fails and is recorded as a
    failure. *)
Definition outcome_markers (username : pystr) (k : nat) (ok : bool)
  : list event :=
  failed_attempts username 0 (k - 1)
  ++ started username
     :: (if ok then [succeeded username; success_line username]
         else [failed_line username]).

Definition valid_outcome (o : nat * bool) : Prop :=
  1 <= fst o <= MAX_RETRIES /\ (snd o = true \/ fst o = MAX_RETRIES).

(** The pause between two accounts, as the script decides it. *)
Definition pause_after (users : list pystr) (username : pystr) : list event :=
  if negb (str_eqb username (last users [])) then [EvSleep INTER_USER_DELAY]
  else [].

Definition batch_markers (users : list pystr)
  (todo : list (pystr * (nat * bool))) : list event :=
  flat_map (fun a => outcome_markers (fst a) (fst (snd a)) (snd (snd a))
                     ++ pause_after users (fst a)) todo.

Definition count_ok (outcomes : list (nat * bool)) : nat :=
  List.length (filter (fun o => snd o) outcomes).

Definition count_failed (outcomes : list (nat * bool)) : nat :=
  List.length (filter (fun o => negb (snd o)) outcomes).

(** The closing lines of the activity log (lines 456-460). *)
Definition summary_lines (success_count fail_count total : nat) : list event :=
  [EvActivity INFO (rule 70) [];
   EvActivity INFO "DAILY RUN COMPLETED" [];
   EvActivity INFO "Results: {success_count}/{len(users)} successful"
              [ANat success_count; ANat total];
   EvActivity INFO "Success: {success_count}, Failed: {fail_count}"
              [ANat success_count; ANat fail_count];
   EvActivity INFO (rule 70) []].

(** Primitive calls in a trace. *)
Definition is_call (ev : event) : bool :=
  match ev with EvCall _ _ => true | _ => false end.

Definition calls (t : list event) : list event := filter is_call t.

(** A dismissal action that was carried out: a click on a close button
    or the ESC key press, completed without exception; and one that was
    attempted, whatever its outcome. *)
Definition is_dismissal (ev : event) : bool :=
  match ev with
  | EvCall (Click _) _ => true
  | EvCall (PerformSendKeys _ ESCAPE) _ => true
  | _ => false
  end.

Definition completed (ev : event) : bool :=
  match ev with
  | EvCall _ (Val _) => true
  | _ => false
  end.

Definition dismissal_attempted (t : list event) : bool :=
  existsb is_dismissal t.

Definition dismissal_completed (t : list event) : bool :=
  existsb (fun ev => is_dismissal ev && completed ev) t.

(** A primitive call, whatever the type of its answer. *)
Inductive prim := Prim (A : Type) (o : op A).
Arguments Prim {A} o.

(** The four click methods in the words of the specification, each as
    the primitive actions it performs on the located element: (1) direct
    click, (2) scroll into view then click, (3) script-injected click,
    (4) simulated pointer movement and click. *)
Definition spec_click_methods (d : driver) (button : elem)
  : list (list prim) :=
  [ [Prim (Click button)];
    [Prim (ExecuteScript d "arguments[0].scrollIntoView({block: 'center'});"
                         button);
     Prim (Click button)];
    [Prim (ExecuteScript d "arguments[0].click();" button)];
    [Prim (PerformMoveClick d button)] ].

(** A click that was performed: the element's own click, the injected
    click script or the pointer click, completed without exception. *)
Definition click_done (ev : event) : bool :=
  match ev with
  | EvCall (Click _) (Val _) => true
  | EvCall (ExecuteScript _ script _) (Val _) =>
      String.eqb script "arguments[0].click();"
  | EvCall (PerformMoveClick _ _) (Val _) => true
  | _ => false
  end.

Section Relations.
Context {W : Type} `{Env W}.

(** The actions of one method performed in order on the environment, up
    to the first that raises: whether all completed, the state reached,
    and the calls made with their answers. *)
Fixpoint perform (steps : list prim) (w : W) : bool * W * list event :=
  match steps with
  | [] => (true, w, [])
  | Prim o :: rest =>
      match handle o w with
      | (Val a, w1) =>
          let '(ok, w2, t) := perform rest w1 in
          (ok, w2, EvCall o (Val a) :: t)
      | (Raise e, w1) => (false, w1, [EvCall o (Raise e)])
      end
  end.

(** "Try in order, stop at first success." *)
Fixpoint first_success (methods : list (list prim)) (w : W)
  : bool * W * list event :=
  match methods with
  | [] => (false, w, [])
  | m :: rest =>
      let '(ok, w1, t) := perform m w in
      if ok then (true, w1, t)
      else let '(r, w2, t2) := first_success rest w1 in (r, w2, t ++ t2)
  end.

(** The page text that a run has read shows a challenge. *)
Definition shows_challenge (ev : event) : bool :=
  match ev with
  | EvCall o r =>
      match o in op T return res T -> bool with
      | Text _ => fun r => match r with
                           | Val text => captcha_found (str_lower text)
                           | Raise _ => false
                           end
      | _ => fun _ => false
      end r
  | _ => false
  end.

Definition challenge_detected (t : list event) : bool :=
  existsb shows_challenge t.

(** Every method of the list is run in turn, from [w] to [w'], and each
    one raises; [t] collects what the methods did. *)
Inductive all_raise : list (string * M W unit) -> W -> W -> list event -> Prop :=
| all_raise_nil w : all_raise [] w w []
| all_raise_cons name f rest w e w' t :
    result (f w) = Raise e ->
    all_raise rest (world (f w)) w' t ->
    all_raise ((name, f) :: rest) w w' (trace (f w) ++ t).

(** A locator expression yields a present and visible element. *)
Definition locates (wait : WebDriverWait) (loc : By * string)
  (w : W) (e : elem) (w' : W) : Prop :=
  exists w1,
    handle (WaitPresence (wait_driver wait) (wait_timeout wait)
                         (fst loc) (snd loc)) w = (Val e, w1)
    /\ handle (IsDisplayed e) w1 = (Val true, w').

(** A locator expression yields nothing: the wait raises, or the element
    is not displayed, or asking whether it is displayed raises. *)
Definition misses (wait : WebDriverWait) (loc : By * string)
  (w w' : W) : Prop :=
  (exists ex,
      handle (WaitPresence (wait_driver wait) (wait_timeout wait)
                           (fst loc) (snd loc)) w = (Raise ex, w'))
  \/ (exists e w1 r,
         handle (WaitPresence (wait_driver wait) (wait_timeout wait)
                              (fst loc) (snd loc)) w = (Val e, w1)
         /\ handle (IsDisplayed e) w1 = (r, w')
         /\ r <> Val true).

Inductive all_miss (wait : WebDriverWait)
  : list (By * string) -> W -> W -> Prop :=
| all_miss_nil w : all_miss wait [] w w
| all_miss_cons loc rest w w1 w' :
    misses wait loc w w1 ->
    all_miss wait rest w1 w' ->
    all_miss wait (loc :: rest) w w'.

(** The outcome of one loop over locator expressions of one kind. *)
Definition loop_outcome (wait : WebDriverWait) (b : By)
  (selectors : list string) (w : W) (o : out W (option elem)) : Prop :=
  (exists e l1 selector l2 w1,
      result o = Val (Some e)
      /\ selectors = l1 ++ selector :: l2
      /\ all_miss wait (map (pair b) l1) w w1
      /\ locates wait (b, selector) w1 e (world o))
  \/ (result o = Val None
      /\ all_miss wait (map (pair b) selectors) w (world o)).

(** A computation that emits no marker, and one whose only marker is the
    success of the workflow, emitted exactly when it returns true. *)
Definition silent {A} (m : M W A) : Prop :=
  forall w, markers (trace (m w)) = [].

Definition reports (username : pystr) (m : M W bool) : Prop :=
  forall w,
    markers (trace (m w))
    = match result (m w) with
      | Val true => [succeeded username]
      | _ => []
      end.

End Relations.

(** The locator expressions of the message button in priority order. *)
Definition message_button_locators : list (By * string) :=
  map (pair XPATH) xpath_selectors ++ map (pair CSS_SELECTOR) css_selectors.

(** ** Observations on traces *)

Definition count (p : event -> bool) (t : list event) : nat :=
  List.length (filter p t).

(** The key that an event delivers to an element: a [send_keys] call
    that returned. *)
Definition key_of (ev : event) : option key :=
  match ev with
  | EvCall o r =>
      match o with
      | SendKeys _ k => match r with Val _ => Some k | Raise _ => None end
      | _ => None
      end
  | _ => None
  end.


Definition keys_sent (t : list event) : list key :=
  flat_map (fun ev => match key_of ev with Some k => [k] | None => [] end) t.

Definition is_typing_pause (ev : event) : bool :=
  match ev with EvSleep (Uniform 50 150) => true | _ => false end.

Definition is_navigation (ev : event) : bool :=
  match ev with EvCall (Get _ _) _ => true | _ => false end.

(** The lookup of the page body that opens every captcha check. *)
Definition is_check (ev : event) : bool :=
  match ev with EvCall (FindElement _ TAG_NAME _) _ => true | _ => false end.

Definition is_wait (ev : event) : bool :=
  match ev with EvCall (WaitPresence _ _ _ _) _ => true | _ => false end.

(** The element that a wait returned. *)
Definition located_of (ev : event) : option elem :=
  match ev with
  | EvCall o r =>
      match o in op T return res T -> option elem with
      | WaitPresence _ _ _ _ =>
          fun r => match r with Val e => Some e | Raise _ => None end
      | _ => fun _ => None
      end r
  | _ => None
  end.

(** The value of the variable [message_input] after a trace, from its
    value before: the element of the last wait that returned. *)
Definition last_located (t : list event) (cur : option elem) : option elem :=
  fold_left (fun acc ev => match located_of ev with
                           | Some e => Some e
                           | None => acc
                           end) t cur.

Definition is_cookie_added (ev : event) : bool :=
  match ev with
  | EvCall (AddCookie _ _) r => match r with Val _ => true | Raise _ => false end
  | _ => false
  end.

(** The items at the head of the cookie list that are objects. *)
Definition is_object (c : cookie) : bool :=
  match c with JObj _ => true | _ => false end.

Fixpoint leading_objects (cookies : list cookie) : list cookie :=
  match cookies with
  | c :: rest => if is_object c then c :: leading_objects rest else []
  | [] => []
  end.

Definition is_warning (ev : event) : bool :=
  match ev with EvLog WARNING _ _ => true | _ => false end.

Definition is_pause (ev : event) : bool :=
  match ev with EvSleep (Uniform 8000 15000) => true | _ => false end.

Definition is_activity (ev : event) : bool :=
  match ev with EvActivity _ _ _ => true | _ => false end.

Definition is_quit (ev : event) : bool :=
  match ev with EvCall (Quit _) _ => true | _ => false end.

Definition is_setup (ev : event) : bool :=
  match ev with
  | EvCall Chrome _ => true
  | EvCall (ExecuteCdpCmd _ _) _ => true
  | _ => false
  end.

(** The start-up script was accepted: [setup_driver] has a browser to
    return. *)
Definition setup_done (ev : event) : bool :=
  match ev with
  | EvCall (ExecuteCdpCmd _ _) r =>
      match r with Val _ => true | Raise _ => false end
  | _ => false
  end.

(** Starting and closing the browser. *)
Definition lifecycle (ev : event) : bool := is_quit ev || is_setup ev.



Definition profile_url_of (username : pystr) : pystr :=
  py "https://www.tiktok.com/@" ++ lstrip_chars [at_sign] username.

(** A trace whose last event is the one-minute sleep of the scheduler
    loop (lines 563 and 576). *)
Definition ends_with_minute_sleep (t : list event) : Prop :=
  exists pre, t = pre ++ [EvSleep (Millis 60000)].


Section Observations.
Context {W : Type} `{Env W}.

(** A computation none of whose events satisfies [p]. *)
Definition quiet {A} (p : event -> bool) (m : M W A) : Prop :=
  forall w, filter p (trace (m w)) = [].



(** A computation at most [n] of whose events satisfy [p]. *)
Definition at_most {A} (p : event -> bool) (n : nat) (m : M W A) : Prop :=
  forall w, count p (trace (m w)) <= n.

End Observations.



(** An environment whose cookie file is missing, and one whose browser
    starts but refuses the start-up script. *)
Definition no_cookie_file : site :=
  mk_site 0 noon (Raise (Exn "FileNotFoundError")) (Val [py "ann"])
    (Val (py "")) (fun _ _ => Raise TimeoutException)
    (fun _ => Val true) (fun _ => Val tt) (fun _ => Val tt)
    (Val tt) (Val tt) true.

(** Noon on an idle machine: no job is due. *)
Definition idle_noon : site :=
  mk_site 0 noon (Val []) (Val [])
    (Val (py "")) (fun _ _ => Raise TimeoutException)
    (fun _ => Val true) (fun _ => Val tt) (fun _ => Val tt)
    (Val tt) (Val tt) false.


Definition no_user_file : site :=
  mk_site 0 noon (Val []) (Raise (Exn "FileNotFoundError"))
    (Val (py "")) (fun _ _ => Raise TimeoutException)
    (fun _ => Val true) (fun _ => Val tt) (fun _ => Val tt)
    (Val tt) (Val tt) true.

(** * Properties *)

(** ** Strings and the account list *)

Module StrFacts.










End StrFacts.


(** ** The daily scheduler *)

Module SchedulerFacts.

(** Comparing two times of day field by field is comparing their
    microseconds since midnight. *)
Lemma time_lt_us (a b : time) :
  valid_time a -> valid_time b ->
  time_lt a b = (us_of_day a <? us_of_day b)%Z.
Proof.
  unfold valid_time, time_lt, us_of_day. intros Ha Hb.
  destruct (Z.ltb_spec (((hour a * 60 + minute a) * 60 + second a) * 1000000
                        + microsecond a)
                       (((hour b * 60 + minute b) * 60 + second b) * 1000000
                        + microsecond b));
    repeat match goal with
           | |- context [(?x <? ?y)%Z] => destruct (Z.ltb_spec x y)
           | |- context [(?x =? ?y)%Z] => destruct (Z.eqb_spec x y)
           end; simpl; try reflexivity; lia.
Qed.

Lemma td_normalise_id (d s us : Z) :
  (0 <= s < 86400)%Z -> (0 <= us < 1000000)%Z ->
  td_normalise d s us = mk_timedelta d s us.
Proof.
  intros Hs Hus. unfold td_normalise.
  rewrite (Z.div_small us), (Z.mod_small us) by lia.
  rewrite Z.add_0_r.
  rewrite (Z.div_small s), (Z.mod_small s) by lia.
  rewrite Z.add_0_r. reflexivity.
Qed.

(** Adding [timedelta(days=1)] moves the date by one day and keeps the
    time of day. *)
Lemma add_one_day (d : Z) (t : time) :
  valid_time t -> (1 <= d < MAXORDINAL)%Z ->
  datetime_add (datetime_combine d t) (timedelta_new 1 0 0 0 0)
  = Val (mk_datetime (d + 1) t).
Proof.
  unfold valid_time, MAXORDINAL. intros Ht Hd.
  destruct t as [h m s us]. simpl in Ht.
  unfold datetime_add, datetime_combine, MAXORDINAL.
  cbn [date tod hour minute second microsecond].
  change (timedelta_new 1 0 0 0 0) with (mk_timedelta 1 0 0).
  unfold timedelta_new.
  rewrite (td_normalise_id d) by lia.
  unfold timedelta_add. cbn [td_days td_seconds td_microseconds].
  rewrite !Z.add_0_r.
  rewrite (td_normalise_id (d + 1)) by lia.
  cbn [td_days td_seconds td_microseconds].
  assert (E5 : ((h * 3600 + m * 60 + s) / 3600 = h)%Z)
    by (symmetry; apply (Z.div_unique _ _ _ (m * 60 + s)); lia).
  assert (E6 : ((h * 3600 + m * 60 + s) mod 3600 = m * 60 + s)%Z)
    by (symmetry; apply (Z.mod_unique _ _ h); lia).
  assert (E7 : ((m * 60 + s) / 60 = m)%Z)
    by (symmetry; apply (Z.div_unique _ _ _ s); lia).
  assert (E8 : ((m * 60 + s) mod 60 = s)%Z)
    by (symmetry; apply (Z.mod_unique _ _ m); lia).
  rewrite E5, E6, E7, E8.
  destruct (Z.ltb_spec 0 (d + 1)); [|lia].
  destruct (Z.leb_spec (d + 1) 3652059); [|lia].
  reflexivity.
Qed.

End SchedulerFacts.



(** ** The effect monad *)

Section MonadFacts.
Context {W : Type} `{Env W}.

Lemma bind_val {A B} (m : M W A) (k : A -> M W B) (w : W) (a : A) :
  result (m w) = Val a ->
  bind m k w = Out (result (k a (world (m w)))) (world (k a (world (m w))))
                   (trace (m w) ++ trace (k a (world (m w)))).
Proof.
  intro E. unfold bind. destruct (m w) as [r w1 t1]. cbn in E. subst r.
  cbn. destruct (k a w1). reflexivity.
Qed.

Lemma bind_raise {A B} (m : M W A) (k : A -> M W B) (w : W) (e : exn) :
  result (m w) = Raise e ->
  bind m k w = Out (Raise e) (world (m w)) (trace (m w)).
Proof.
  intro E. unfold bind. destruct (m w) as [r w1 t1]. cbn in E. subst r.
  reflexivity.
Qed.

Lemma bind_emit {B} (ev : event) (k : unit -> M W B) (w : W) :
  bind (emit ev) k w = Out (result (k tt w)) (world (k tt w))
                           (ev :: trace (k tt w)).
Proof. unfold bind, emit. destruct (k tt w). reflexivity. Qed.

Lemma try_val {A} (m : M W A) (h : exn -> M W A) (w : W) (a : A) :
  result (m w) = Val a -> try_except m h w = m w.
Proof.
  intro E. unfold try_except. destruct (m w) as [r w1 t1]. cbn in E.
  subst r. reflexivity.
Qed.

Lemma try_raise {A} (m : M W A) (h : exn -> M W A) (w : W) (e : exn) :
  result (m w) = Raise e ->
  try_except m h w = Out (result (h e (world (m w)))) (world (h e (world (m w))))
                         (trace (m w) ++ trace (h e (world (m w)))).
Proof.
  intro E. unfold try_except. destruct (m w) as [r w1 t1]. cbn in E.
  subst r. cbn. destruct (h e w1). reflexivity.
Qed.

(** A handler that always returns a value makes the whole [try]
    statement return a value. *)
Lemma try_total {A} (m : M W A) (h : exn -> M W A) :
  (forall e w, exists a, result (h e w) = Val a) ->
  forall w, exists a, result (try_except m h w) = Val a.
Proof.
  intros Hh w. destruct (result (m w)) as [a|e] eqn:E.
  - exists a. rewrite (try_val m h w E). exact E.
  - destruct (Hh e (world (m w))) as [a Ea]. exists a.
    rewrite (try_raise m h w E). exact Ea.
Qed.

Lemma call_out {A} (o : op A) (w : W) :
  call o w = Out (fst (handle o w)) (snd (handle o w))
                 [EvCall o (fst (handle o w))].
Proof. unfold call. destruct (handle o w). reflexivity. Qed.

End MonadFacts.

(** Traces are compared up to the bracketing of concatenations. *)
Ltac norm_trace :=
  rewrite ?app_nil_r; repeat rewrite <- app_assoc; cbn [app];
  rewrite ?app_nil_r.

(** ** The interaction executor *)

Section ClickFacts.
Context {W : Type} `{Env W}.


Lemma click_loop_cons (name : string) (f : M W unit)
  (rest : list (string * M W unit)) (w : W) :
  click_loop ((name, f) :: rest) w
  = match result (f w) with
    | Val _ =>
        Out (Val true) (world (f w))
            (EvLog DEBUG "  Trying: {method_name}" [ALit name]
             :: trace (f w)
             ++ [EvLog INFO "Clicked via {method_name}" [ALit name];
                 EvSleep (Millis 2000)])
    | Raise e =>
        let o := click_loop rest (world (f w)) in
        Out (result o) (world o)
            (EvLog DEBUG "  Trying: {method_name}" [ALit name]
             :: trace (f w)
             ++ EvLog DEBUG "  {method_name} failed: {type(e).__name__}"
                      [ALit name; AExn e]
             :: trace o)
    end.
Proof.
  cbn [click_loop]. unfold bind, try_except, logger, sleep, emit, ret.
  cbn [result world trace].
  destruct (f w) as [r w1 t]. destruct r as [a|e]; cbn [result world trace].
  - norm_trace. reflexivity.
  - destruct (click_loop rest w1) as [r2 w2 t2]. cbn [result world trace].
    norm_trace. reflexivity.
Qed.

(** The loop runs the methods in list order, stops at the first one that
    does not raise, and never raises itself. *)
Lemma click_loop_spec (methods : list (string * M W unit)) :
  forall w,
    let o := click_loop methods w in
    (result o = Val true
     /\ exists tried name f rest w1 t,
         methods = tried ++ (name, f) :: rest
         /\ all_raise tried w w1 t
         /\ result (f w1) = Val tt
         /\ world o = world (f w1)
         /\ calls (trace o) = calls (t ++ trace (f w1)))
    \/ (result o = Val false
        /\ exists t, all_raise methods w (world o) t
                     /\ calls (trace o) = calls t).
Proof.
  induction methods as [|[name f] rest IH]; intros w o.
  - right. split; [reflexivity|]. exists []. split; [constructor | reflexivity].
  - subst o. rewrite click_loop_cons.
    destruct (result (f w)) as [[]|e] eqn:Ef.
    + left. split; [reflexivity|].
      exists [], name, f, rest, w, []. cbn [app result world trace].
      repeat split; try constructor; auto.
      unfold calls. cbn [filter is_call]. rewrite !filter_app. cbn [filter is_call].
      rewrite app_nil_r. reflexivity.
    + cbn zeta. cbn [result world trace].
      destruct (IH (world (f w))) as [[Er Hs]|[Er Hs]].
      * left. split; [exact Er|].
        destruct Hs as (tried & n' & f' & rest' & w1 & t & Em & Ha & Ef' & Ew & Ec).
        exists ((name, f) :: tried), n', f', rest', w1, (trace (f w) ++ t).
        repeat split; auto.
        -- rewrite Em. reflexivity.
        -- econstructor; eauto.
        -- unfold calls in *. cbn [filter is_call].
           rewrite !filter_app. cbn [filter is_call]. rewrite Ec.
           rewrite !filter_app. rewrite app_assoc. reflexivity.
      * right. split; [exact Er|].
        destruct Hs as (t & Ha & Ec).
        exists (trace (f w) ++ t). split.
        -- econstructor; eauto.
        -- unfold calls in *. cbn [filter is_call].
           rewrite !filter_app. cbn [filter is_call]. rewrite Ec. reflexivity.
Qed.

(** A loop over methods each of which does what a list of primitive
    actions says does what trying those lists in order says. *)
Lemma click_loop_performs (methods : list (string * M W unit))
  (specs : list (list prim)) :
  Forall2 (fun mf steps =>
             forall w,
               world (snd mf w) = snd (fst (perform steps w))
               /\ calls (trace (snd mf w)) = snd (perform steps w)
               /\ (if fst (fst (perform steps w))
                   then result (snd mf w) = Val tt
                   else exists e, result (snd mf w) = Raise e))
          methods specs ->
  forall w,
    (result (click_loop methods w), world (click_loop methods w),
     calls (trace (click_loop methods w)))
    = (let '(ok, w', t) := first_success specs w in (Val ok, w', t)).
Proof.
  induction 1 as [|[name f] steps methods specs Hf _ IH]; intro w.
  - reflexivity.
  - rewrite click_loop_cons. cbn [first_success].
    destruct (Hf w) as (Hw & Hc & Hr). cbn [snd] in Hw, Hc, Hr.
    destruct (perform steps w) as [[ok w1] t]. cbn [fst snd] in Hw, Hc, Hr.
    destruct ok.
    + rewrite Hr. cbn [result world trace]. rewrite Hw.
      f_equal. unfold calls in *. cbn [filter is_call].
      rewrite filter_app, Hc. cbn [filter is_call]. apply app_nil_r.
    + destruct Hr as [e Hr]. rewrite Hr. cbn zeta. cbn [result world trace].
      specialize (IH (world (f w))). rewrite Hw in *.
      destruct (first_success specs w1) as [[r w2] t2].
      injection IH as Er Ew Ec. rewrite Er, Ew.
      f_equal. unfold calls in *. cbn [filter is_call].
      rewrite filter_app, Hc. cbn [filter is_call]. rewrite Ec.
      reflexivity.
Qed.

(** When each method performs one click if it completes and none if it
    raises, the loop performs one click if it returns true and none if
    it returns false. *)
Lemma click_loop_clicks (methods : list (string * M W unit)) :
  Forall (fun mf =>
            forall w,
              List.length (filter click_done (trace (snd mf w)))
              = match result (snd mf w) with Val _ => 1 | Raise _ => 0 end)
         methods ->
  forall w,
    result (click_loop methods w)
    = Val (Nat.eqb (List.length (filter click_done
                                        (trace (click_loop methods w)))) 1)
    /\ List.length (filter click_done (trace (click_loop methods w))) <= 1.
Proof.
  induction 1 as [|[name f] methods Hf _ IH]; intro w.
  - split; [reflexivity | cbn; lia].
  - rewrite click_loop_cons. specialize (Hf w). cbn [snd] in Hf.
    destruct (result (f w)) as [[]|e]; cbn zeta; cbn [result world trace].
    + cbn [filter click_done]. rewrite filter_app, length_app, Hf.
      cbn. split; [reflexivity | lia].
    + destruct (IH (world (f w))) as [Er Hle].
      cbn [filter click_done]. rewrite filter_app, length_app, Hf.
      cbn [filter click_done Nat.add]. split; assumption.
Qed.

Lemma click_methods_perform (d : driver) (button : elem) :
  Forall2 (fun mf steps =>
             forall w,
               world (snd mf w) = snd (fst (perform steps w))
               /\ calls (trace (snd mf w)) = snd (perform steps w)
               /\ (if fst (fst (perform steps w))
                   then result (snd mf w) = Val tt
                   else exists e, result (snd mf w) = Raise e))
          (click_methods d button) (spec_click_methods d button).
Proof.
  unfold click_methods, spec_click_methods.
  repeat constructor; cbn [snd perform];
    unfold bind, call, sleep, emit;
    repeat match goal with
           | |- context [handle ?o ?w'] =>
               destruct (handle o w') as [[[]|?] ?];
               cbn [result world trace fst snd app]
           end;
    try reflexivity; eauto.
Qed.

Lemma click_methods_click (d : driver) (button : elem) :
  Forall (fun mf =>
            forall w,
              List.length (filter click_done (trace (snd mf w)))
              = match result (snd mf w) with Val _ => 1 | Raise _ => 0 end)
         (click_methods (W := W) d button).
Proof.
  unfold click_methods.
  repeat constructor; intro w; cbn [snd];
    unfold bind, call, sleep, emit;
    repeat match goal with
           | |- context [handle ?o ?w'] =>
               destruct (handle o w') as [[[]|?] ?];
               cbn [result world trace fst snd app]
           end;
    reflexivity.
Qed.

End ClickFacts.

(** C6.  For a located element the four click methods are Normal click,
    Scroll + click, JavaScript click and ActionChains, in that order.
    The executor runs them in that order; either one of them completes,
    every method before it has raised, no method after it is run, and
    the result is true, or all four raise and the result is false.  In
    both cases the executor returns a value: no exception reaches its
    caller.  What the executor does to the page is what the
    specification lists: its result, the state it leaves and its
    primitive calls with their answers are those of performing, in
    order and up to the first method all of whose actions complete, the
    direct click, the scroll into view followed by a click, the injected
    click script and the pointer movement with click.  At most one click
    is performed in a call, and one is performed exactly when the result
    is true. *)
Theorem click_message_button_first_success
  {W : Type} `{Env W} (d : driver) (button : elem) (w : W) :
  let o := click_message_button d (Some button) w in
  map fst (click_methods (W := W) d button)
  = ["Normal click"; "Scroll + click"; "JavaScript click"; "ActionChains"]%string
  /\ ((result o = Val true
       /\ exists tried name f rest w1 t,
           click_methods d button = tried ++ (name, f) :: rest
           /\ all_raise tried w w1 t
           /\ result (f w1) = Val tt
           /\ world o = world (f w1)
           /\ calls (trace o) = calls (t ++ trace (f w1)))
      \/ (result o = Val false
          /\ exists t, all_raise (click_methods d button) w (world o) t
                       /\ calls (trace o) = calls t))
  /\ (result o, world o, calls (trace o))
     = (let '(ok, w', t) := first_success (spec_click_methods d button) w in
        (Val ok, w', t))
  /\ List.length (filter click_done (trace o)) <= 1
  /\ (result o = Val true
      <-> List.length (filter click_done (trace o)) = 1).
Proof.
  intro o. split; [reflexivity|]. split.
  - subst o. unfold click_message_button, logger.
    rewrite bind_emit. cbn [result world trace].
    destruct (click_loop_spec (click_methods d button) w) as [[Er Hs]|[Er Hs]].
    + left. split; [exact Er|].
      destruct Hs as (tried & name & f & rest & w1 & t & Em & Ha & Ef & Ew & Ec).
      exists tried, name, f, rest, w1, t. repeat split; auto.
    + right. split; [exact Er|].
      destruct Hs as (t & Ha & Ec). exists t. split; auto.
  - subst o. unfold click_message_button, logger.
    rewrite bind_emit. cbn [result world trace].
    pose proof (click_loop_performs (click_methods_perform d button) w) as Hp.
    destruct (click_loop_clicks (click_methods_click d button) w) as [Er Hle].
    destruct (click_loop (click_methods d button) w) as [r w1 t].
    cbn [result world trace] in *.
    change (calls (EvLog INFO "Clicking Message button..." [] :: t))
      with (calls t).
    change (filter click_done (EvLog INFO "Clicking Message button..." [] :: t))
      with (filter click_done t).
    split; [exact Hp|]. split; [exact Hle|].
    rewrite Er. split.
    + intro E. injection E as E. apply Nat.eqb_eq. exact E.
    + intro E. rewrite E. reflexivity.
Qed.

(** ** The element locator *)

Section LocatorFacts.
Context {W : Type} `{Env W}.

Lemma all_miss_app (wait : WebDriverWait) (l1 l2 : list (By * string))
  (w w1 w2 : W) :
  all_miss wait l1 w w1 -> all_miss wait l2 w1 w2 ->
  all_miss wait (l1 ++ l2) w w2.
Proof.
  induction 1; intro H2; cbn [app]; auto.
  econstructor; eauto.
Qed.

Ltac probe_cases wait b selector w :=
  unfold bind, try_except, logger, emit, until_presence, call, ret;
  cbn [result world trace wait_driver wait_timeout];
  destruct (handle (WaitPresence (wait_driver wait) (wait_timeout wait)
                                 b selector) w) as [[e|ex] w1] eqn:E1;
  cbn [result world trace];
  [ destruct (handle (IsDisplayed e) w1) as [[[|]|ex] w2] eqn:E2;
    cbn [result world trace] | ].

Ltac found_here e w selector rest E1 E2 :=
  left; exists e, [], selector, rest, w;
  repeat split; [constructor | eexists; split; [exact E1 | exact E2]].

Ltac found_later IH selector :=
  let e' := fresh "e" in let l1 := fresh "l" in let s' := fresh "s" in
  let l2 := fresh "l" in let w' := fresh "w" in
  let Er := fresh "Er" in let El := fresh "El" in
  let Hm := fresh "Hm" in let Hl := fresh "Hl" in
  let Hih := fresh "Hih" in
  pose proof IH as Hih; unfold loop_outcome in Hih |- *;
  match goal with
  | |- context [match ?o with Out _ _ _ => _ end] => destruct o
  end;
  cbn [result world trace] in Hih |- *;
  destruct Hih as [(e' & l1 & s' & l2 & w' & Er & El & Hm & Hl)|[Er Hm]];
  [ left; exists e', (selector :: l1), s', l2, w';
    repeat split; [exact Er | rewrite El; reflexivity | | exact Hl];
    cbn [map]; econstructor; [|exact Hm]
  | right; split; [exact Er|]; cbn [map]; econstructor; [|exact Hm] ].

Lemma find_by_xpath_spec (wait : WebDriverWait) (selectors : list string) :
  forall i w, loop_outcome wait XPATH selectors w
                (find_by_xpath wait i selectors w).
Proof.
  induction selectors as [|selector rest IH]; intros i w.
  - right. split; [reflexivity | constructor].
  - cbn [find_by_xpath].
    probe_cases wait XPATH selector w.
    + found_here e w selector rest E1 E2.
    + found_later (IH (S i) w2) selector.
      * right. exists e, w1, (Val false). repeat split; auto. discriminate.
      * right. exists e, w1, (Val false). repeat split; auto. discriminate.
    + found_later (IH (S i) w2) selector.
      * right. exists e, w1, (Raise ex). repeat split; auto. discriminate.
      * right. exists e, w1, (Raise ex). repeat split; auto. discriminate.
    + found_later (IH (S i) w1) selector.
      * left. exists ex. exact E1.
      * left. exists ex. exact E1.
Qed.

Lemma find_by_css_spec (wait : WebDriverWait) (selectors : list string) :
  forall w, loop_outcome wait CSS_SELECTOR selectors w
              (find_by_css wait selectors w).
Proof.
  induction selectors as [|selector rest IH]; intros w.
  - right. split; [reflexivity | constructor].
  - cbn [find_by_css].
    probe_cases wait CSS_SELECTOR selector w.
    + found_here e w selector rest E1 E2.
    + found_later (IH w2) selector.
      * right. exists e, w1, (Val false). repeat split; auto. discriminate.
      * right. exists e, w1, (Val false). repeat split; auto. discriminate.
    + found_later (IH w2) selector.
      * right. exists e, w1, (Raise ex). repeat split; auto. discriminate.
      * right. exists e, w1, (Raise ex). repeat split; auto. discriminate.
    + found_later (IH w1) selector.
      * left. exists ex. exact E1.
      * left. exists ex. exact E1.
Qed.

End LocatorFacts.

(** C7.  The locator of the message button goes through its expressions
    in the fixed priority order, the seven XPath expressions and then the
    two CSS expressions.  It returns the element of the first expression
    that yields a present and visible match: every expression before it
    has been tried and has yielded nothing, and no expression after it is
    tried.  It returns the not-found signal only when every expression
    has been tried and has yielded nothing, and it never raises. *)
Theorem find_message_button_first_match
  {W : Type} `{Env W} (d : driver) (wait : WebDriverWait) (w : W) :
  let o := find_message_button d wait w in
  (exists e l1 loc l2 w1,
      result o = Val (Some e)
      /\ message_button_locators = l1 ++ loc :: l2
      /\ all_miss wait l1 w w1
      /\ locates wait loc w1 e (world o))
  \/ (result o = Val None
      /\ all_miss wait message_button_locators w (world o)).
Proof.
  intro o. subst o. unfold find_message_button, logger.
  rewrite bind_emit. cbn [result world trace].
  unfold message_button_locators.
  pose proof (find_by_xpath_spec wait xpath_selectors 1 w) as Hx.
  destruct Hx as [(e & l1 & sel & l2 & w1 & Er & El & Hm & Hl)|[Er Hm]];
    erewrite bind_val by exact Er; cbn [result world trace ret].
  - left. exists e, (map (pair XPATH) l1), (XPATH, sel),
      (map (pair XPATH) l2 ++ map (pair CSS_SELECTOR) css_selectors), w1.
    repeat split; auto.
    rewrite El, map_app. cbn [map]. rewrite <- app_assoc. reflexivity.
  - set (wx := world (find_by_xpath wait 1 xpath_selectors w)) in *.
    pose proof (find_by_css_spec wait css_selectors wx) as Hc.
    destruct Hc as [(e & l1 & sel & l2 & w1 & Er' & El & Hm' & Hl)|[Er' Hm']];
      erewrite bind_val by exact Er'; cbn [result world trace ret].
    + left. exists e,
        (map (pair XPATH) xpath_selectors ++ map (pair CSS_SELECTOR) l1),
        (CSS_SELECTOR, sel), (map (pair CSS_SELECTOR) l2), w1.
      repeat split; auto.
      * rewrite El, map_app. cbn [map]. rewrite <- app_assoc. reflexivity.
      * eapply all_miss_app; eauto.
    + right. rewrite bind_emit. cbn [result world trace ret].
      split; [reflexivity|]. eapply all_miss_app; eauto.
Qed.

(** ** The captcha guard *)

Section CaptchaFacts.
Context {W : Type} `{Env W}.

(** The loop over the close buttons returns true from the function after
    a completed click, or runs to its end without any completed
    dismissal. *)
Lemma close_loop_spec (d : driver) (selectors : list string) :
  forall w,
    let o := close_loop d selectors w in
    (result o = Val (Some true) /\ dismissal_completed (trace o) = true)
    \/ (result o = Val None /\ dismissal_completed (trace o) = false).
Proof.
  induction selectors as [|selector rest IH]; intros w o; subst o.
  - right. split; reflexivity.
  - assert (Hrec : forall w' pre,
               dismissal_completed pre = false ->
               forall o,
                 o = (match close_loop d rest w' with
                      | Out r w2 t2 => Out r w2 (pre ++ t2)
                      end) ->
                 (result o = Val (Some true)
                  /\ dismissal_completed (trace o) = true)
                 \/ (result o = Val None
                     /\ dismissal_completed (trace o) = false)).
    { intros w' pre Hpre o Eo. pose proof (IH w') as Hih. cbv zeta in Hih.
      destruct (close_loop d rest w') as [r w2 t2]. subst o.
      cbn [result world trace] in *.
      unfold dismissal_completed in *. rewrite existsb_app, Hpre.
      exact Hih. }
    cbn [close_loop].
    unfold bind, try_except, logger, sleep, emit, call, ret.
    destruct (handle (FindElement d XPATH selector) w) as [[btn|ex] w1] eqn:E1;
      cbn [result world trace].
    + destruct (handle (IsDisplayed btn) w1) as [[[|]|ex] w2] eqn:E2;
        cbn [result world trace].
      * destruct (handle (Click btn) w2) as [[[]|ex] w3] eqn:E3;
          cbn [result world trace].
        -- left. split; reflexivity.
        -- eapply Hrec; [|reflexivity]. reflexivity.
      * eapply Hrec; [|reflexivity]. reflexivity.
      * eapply Hrec; [|reflexivity]. reflexivity.
    + eapply Hrec; [|reflexivity]. reflexivity.
Qed.

End CaptchaFacts.

(** C8, as the code has it.  The captcha guard never raises, and it
    returns true exactly when the page text it read matches one of the
    challenge indicators (lowered indicator contained in the lowered
    text) and one dismissal action, a click on a close button or the ESC
    key press, completed without exception.  It returns false when no
    indicator matches, and also when every dismissal action raised.
    Whether the challenge went away is not looked at. *)
Theorem check_and_close_captcha_result
  {W : Type} `{Env W} (d : driver) (w : W) :
  let o := check_and_close_captcha d w in
  result o
  = Val (challenge_detected (trace o) && dismissal_completed (trace o)).
Proof.
  intro o. remember (check_and_close_captcha d w) as o' eqn:Eo. subst o.
  unfold check_and_close_captcha, bind, try_except, logger, sleep, emit,
    call, ret in Eo.
  cbn [result world trace] in Eo.
  destruct (handle (FindElement d TAG_NAME "body") w) as [[body|ex] w1] eqn:E1;
    cbn [result world trace] in Eo; [|subst o'; reflexivity].
  destruct (handle (Text body) w1) as [[text|ex] w2] eqn:E2;
    cbn [result world trace] in Eo; [|subst o'; reflexivity].
  destruct (captcha_found (str_lower text)) eqn:Ef;
    cbn [result world trace] in Eo.
  - pose proof (close_loop_spec d close_selectors w2) as Hc. cbv zeta in Hc.
    destruct (close_loop d close_selectors w2) as [rc wc tc].
    cbn [result world trace] in Hc, Eo.
    destruct Hc as [[Er Ed]|[Er Ed]]; subst rc; cbn [result world trace] in Eo.
    + subst o'. cbn [result world trace].
      unfold challenge_detected, dismissal_completed in *.
      cbn [existsb app shows_challenge is_dismissal completed andb orb].
      rewrite Ef. rewrite !existsb_app, Ed. cbn [orb andb].
      rewrite ?orb_true_r. reflexivity.
    + destruct (handle (PerformSendKeys d ESCAPE) wc)
        as [[[]|ex] w3] eqn:E3; cbn [result world trace] in Eo;
        subst o'; cbn [result world trace];
        unfold challenge_detected, dismissal_completed in *;
        cbn [existsb app shows_challenge is_dismissal completed andb orb];
        rewrite Ef; rewrite !existsb_app, Ed; reflexivity.
  - subst o'. cbn [result world trace].
    unfold challenge_detected, dismissal_completed.
    cbn [existsb app shows_challenge is_dismissal completed andb orb].
    rewrite Ef. reflexivity.
Qed.

(** C8 as worded says true whenever a challenge was detected and a
    dismissal was attempted.  On a page that shows a challenge, offers no
    close button and on which the ESC key press fails, the guard has
    detected the challenge and attempted a dismissal, and returns
    false. *)
Lemma captcha_guard_attempt_without_success :
  let o := check_and_close_captcha 1 challenge_page in
  challenge_detected (trace o) = true
  /\ dismissal_attempted (trace o) = true
  /\ result o = Val false
  /\ result o
     <> Val (challenge_detected (trace o) && dismissal_attempted (trace o)).
Proof.
  vm_compute. repeat split; discriminate.
Qed.

(** ** Markers of the workflow *)

Section MarkerFacts.
Context {W : Type} `{Env W}.

Lemma markers_app (t1 t2 : list event) :
  markers (t1 ++ t2) = markers t1 ++ markers t2.
Proof. apply filter_app. Qed.

Lemma silent_ret {A} (a : A) : silent (ret (W := W) a).
Proof. intro w. reflexivity. Qed.

Lemma silent_raise {A} (e : exn) : silent (raise (W := W) (A := A) e).
Proof. intro w. reflexivity. Qed.

Lemma silent_emit (ev : event) :
  is_marker ev = false -> silent (emit (W := W) ev).
Proof. intros E w. unfold markers. cbn. rewrite E. reflexivity. Qed.

Lemma silent_call {A} (o : op A) : silent (call o).
Proof. intro w. rewrite call_out. reflexivity. Qed.

Lemma silent_bind {A B} (m : M W A) (k : A -> M W B) :
  silent m -> (forall a, silent (k a)) -> silent (bind m k).
Proof.
  intros Hm Hk w. unfold bind. pose proof (Hm w) as Hmw.
  destruct (m w) as [[a|e] w1 t1]; cbn [trace] in *.
  - pose proof (Hk a w1) as Hkw. destruct (k a w1) as [r w2 t2].
    cbn [trace] in *. rewrite markers_app, Hmw, Hkw. reflexivity.
  - exact Hmw.
Qed.

Lemma silent_try {A} (m : M W A) (h : exn -> M W A) :
  silent m -> (forall e, silent (h e)) -> silent (try_except m h).
Proof.
  intros Hm Hh w. unfold try_except. pose proof (Hm w) as Hmw.
  destruct (m w) as [[a|e] w1 t1]; cbn [trace] in *.
  - exact Hmw.
  - pose proof (Hh e w1) as Hhw. destruct (h e w1) as [r w2 t2].
    cbn [trace] in *. rewrite markers_app, Hmw, Hhw. reflexivity.
Qed.

Lemma silent_logger_debug (template : string) (args : list arg) :
  silent (logger (W := W) DEBUG template args).
Proof. apply silent_emit. reflexivity. Qed.

Lemma silent_logger_warning (template : string) (args : list arg) :
  silent (logger (W := W) WARNING template args).
Proof. apply silent_emit. reflexivity. Qed.

Lemma silent_logger_error (template : string) (args : list arg) :
  silent (logger (W := W) ERROR template args).
Proof. apply silent_emit. reflexivity. Qed.

Lemma silent_sleep_fixed (ms : N) : silent (sleep (W := W) (Millis ms)).
Proof. apply silent_emit. reflexivity. Qed.

Lemma reports_ret_false (u : pystr) : reports u (ret (W := W) false).
Proof. intro w. reflexivity. Qed.

Lemma reports_success (u : pystr) :
  reports u (logger (W := W) INFO "Success @{username}"
                    [AStr (lstrip_chars [at_sign] u)];;
             ret true).
Proof. intro w. reflexivity. Qed.

Lemma reports_bind {A} (u : pystr) (m : M W A) (k : A -> M W bool) :
  silent m -> (forall a, reports u (k a)) -> reports u (bind m k).
Proof.
  intros Hm Hk w. unfold bind. pose proof (Hm w) as Hmw.
  destruct (m w) as [[a|e] w1 t1]; cbn [trace result] in *.
  - pose proof (Hk a w1) as Hkw. destruct (k a w1) as [r w2 t2].
    cbn [trace result] in *. rewrite markers_app, Hmw, Hkw. reflexivity.
  - exact Hmw.
Qed.

End MarkerFacts.

Create HintDb silent.
#[export] Hint Resolve silent_ret silent_raise silent_call
  silent_logger_debug silent_logger_warning silent_logger_error
  silent_sleep_fixed : silent.

(** Walks through a computation built from the monad operations. *)
Ltac silence :=
  repeat first
    [ progress intros
    | solve [eauto with silent]
    | apply silent_bind
    | apply silent_try
    | apply silent_emit; reflexivity
    | match goal with
      | |- silent (logger _ _ _) => apply silent_emit; reflexivity
      | |- silent (sleep _) => apply silent_emit; reflexivity
      | |- silent (if ?b then _ else _) => destruct b
      | |- silent (match ?x with _ => _ end) => destruct x
      end ].

Section WorkflowFacts.
Context {W : Type} `{Env W}.

Lemma silent_close_loop (d : driver) (selectors : list string) :
  silent (close_loop d selectors).
Proof. induction selectors; cbn [close_loop]; silence. Qed.

Lemma silent_check_and_close_captcha (d : driver) :
  silent (check_and_close_captcha d).
Proof.
  pose proof (silent_close_loop d).
  unfold check_and_close_captcha. silence.
Qed.

Lemma silent_captcha_guard (d : driver) (n : nat) :
  silent (captcha_guard d n).
Proof.
  pose proof (silent_check_and_close_captcha d).
  induction n; cbn [captcha_guard]; silence.
Qed.

Lemma silent_find_by_xpath (wait : WebDriverWait) (selectors : list string) :
  forall i, silent (find_by_xpath wait i selectors).
Proof.
  induction selectors; intro i; cbn [find_by_xpath];
    unfold until_presence; silence.
Qed.

Lemma silent_find_by_css (wait : WebDriverWait) (selectors : list string) :
  silent (find_by_css wait selectors).
Proof.
  induction selectors; cbn [find_by_css]; unfold until_presence; silence.
Qed.

Lemma silent_find_message_button (d : driver) (wait : WebDriverWait) :
  silent (find_message_button d wait).
Proof.
  pose proof (silent_find_by_xpath wait).
  pose proof (silent_find_by_css wait).
  unfold find_message_button. silence.
Qed.

Lemma silent_click_loop (methods : list (string * M W unit)) :
  Forall (fun m => silent (snd m)) methods -> silent (click_loop methods).
Proof.
  induction 1 as [|[name f] rest Hf Hr IH]; cbn [click_loop]; silence.
Qed.

Lemma silent_click_message_button (d : driver) (button : option elem) :
  silent (click_message_button d button).
Proof.
  destruct button as [b|]; cbn [click_message_button]; [|silence].
  apply silent_bind; [silence | intros _].
  apply silent_click_loop. unfold click_methods.
  repeat constructor; cbn [snd]; silence.
Qed.

Lemma silent_find_input (wait : WebDriverWait) (selectors : list string) :
  forall cur, silent (find_input wait selectors cur).
Proof.
  induction selectors; intro cur; cbn [find_input];
    unfold until_presence; silence.
Qed.

Lemma silent_human_type (element : elem) (text : pystr) :
  silent (human_type element text).
Proof. induction text; cbn [human_type]; silence. Qed.

Lemma silent_send_streak_handler (d : driver) (u : pystr) (e : exn) :
  silent (send_streak_handler d u e).
Proof. unfold send_streak_handler. silence. Qed.

End WorkflowFacts.

#[export] Hint Resolve silent_check_and_close_captcha silent_captcha_guard
  silent_find_message_button silent_click_message_button silent_find_input
  silent_human_type silent_send_streak_handler : silent.

(** Walks through the body of the workflow. *)
Ltac report :=
  repeat first
    [ progress intros
    | apply reports_ret_false
    | apply reports_success
    | apply reports_bind; [solve [silence] | ]
    | match goal with
      | |- reports _ (if ?b then _ else _) => destruct b
      | |- reports _ (match ?x with _ => _ end) => destruct x
      end ].

Section AttemptFacts.
Context {W : Type} `{Env W}.

Lemma markers_cons (ev : event) (t : list event) :
  markers (ev :: t) = if is_marker ev then ev :: markers t else markers t.
Proof. reflexivity. Qed.

(** The body of the workflow logs its start once, and its success
    exactly when it returns true. *)
Lemma body_markers (d : driver) (u : pystr) (w : W) :
  markers (trace (send_streak_body d u w))
  = started u :: match result (send_streak_body d u w) with
                 | Val true => [succeeded u]
                 | _ => []
                 end.
Proof.
  remember (send_streak_body d u w) as o eqn:Eo.
  unfold send_streak_body, logger at 1 2 3 4 in Eo.
  rewrite !bind_emit in Eo. cbn [result world trace] in Eo.
  subst o. cbn [result world trace].
  rewrite !markers_cons.
  change (is_marker (EvLog INFO (rule 60) [])) with false.
  cbn [is_marker String.eqb Ascii.eqb Bool.eqb orb].
  apply (f_equal (cons (started u))).
  revert w.
  match goal with
  | |- forall w, markers (trace (?R w)) = _ => change (reports u R)
  end.
  report.
Qed.

(** A workflow run never raises; it logs its start once, and its success
    exactly when it returns true. *)
Lemma send_markers (d : driver) (u : pystr) (w : W) :
  exists b,
    result (send_streak_to_user d u w) = Val b
    /\ markers (trace (send_streak_to_user d u w))
       = started u :: (if b then [succeeded u] else []).
Proof.
  pose proof (body_markers d u w) as Hb.
  unfold send_streak_to_user, try_except.
  destruct (send_streak_body d u w) as [[b|e] w1 t1]; cbn [result trace] in *.
  - exists b. split; [reflexivity|]. rewrite Hb. destruct b; reflexivity.
  - pose proof (silent_send_streak_handler d u e w1) as Hs.
    assert (Hr : result (send_streak_handler d u e w1) = Val false).
    { unfold send_streak_handler, bind, try_except, logger, emit, call, ret.
      destruct (handle _ w1) as [[?|?] ?]; reflexivity. }
    destruct (send_streak_handler d u e w1) as [r w2 t2].
    cbn [result trace] in *. exists false. split; [exact Hr|].
    rewrite markers_app, Hb, Hs. reflexivity.
Qed.

Lemma bind_log_activity {B} (template : string) (args : list arg) (l : level)
  (k : unit -> M W B) (w : W) :
  bind (log_activity template args l) k w
  = Out (result (k tt w)) (world (k tt w))
        (EvActivity l template args
         :: EvLog (match l with
                   | ERROR => ERROR
                   | WARNING => WARNING
                   | _ => INFO
                   end) template args
         :: trace (k tt w)).
Proof.
  unfold log_activity, logger, bind, emit.
  destruct l; destruct (k tt w); reflexivity.
Qed.

(** The attempts of one account, from attempt number [i] on. *)
Lemma attempt_loop_markers (d : driver) (u : pystr) (n : nat) :
  forall i sc fc w,
    i + n = MAX_RETRIES -> 1 <= n ->
    let o := attempt_loop d u (seq i n) sc fc w in
    exists j ok,
      1 <= j <= n /\ (ok = true \/ j = n)
      /\ markers (trace o)
         = failed_attempts u i (j - 1)
           ++ started u
              :: (if ok then [succeeded u; success_line u]
                  else [failed_line u])
      /\ result o = Val (if ok then (S sc, fc) else (sc, S fc)).
Proof.
  induction n as [|n IH]; intros i sc fc w Hi Hn o; [lia|].
  subst o. cbn [seq attempt_loop].
  destruct (send_markers d u w) as [b [Er Em]].
  erewrite bind_val by exact Er. cbn [result world trace].
  set (w1 := world (send_streak_to_user d u w)).
  rewrite markers_app, Em.
  destruct b.
  - rewrite bind_log_activity. cbn [result world trace ret].
    exists 1, true. repeat split; auto; try lia.
  - destruct (i <? MAX_RETRIES - 1) eqn:Hlt.
    + apply Nat.ltb_lt in Hlt.
      rewrite bind_log_activity. cbn beta. unfold sleep.
      rewrite !bind_emit. cbn [result world trace].
      destruct (IH (S i) sc fc w1) as (j & ok & Hj & Hok & Hm & Hr);
        [lia | unfold MAX_RETRIES in *; lia |].
      exists (S j), ok. repeat split; try lia.
      * destruct Hok as [Hok|Hok]; [left; exact Hok | right; lia].
      * rewrite !markers_cons.
        cbn [is_marker String.eqb Ascii.eqb Bool.eqb orb].
        rewrite Hm. replace (S j - 1) with (S (j - 1)) by lia.
        reflexivity.
      * exact Hr.
    + apply Nat.ltb_ge in Hlt.
      assert (n = 0) by (unfold MAX_RETRIES in *; lia). subst n.
      rewrite bind_log_activity. cbn [seq attempt_loop result world trace ret].
      exists 1, false. repeat split; auto; try lia.
Qed.

(** The whole batch: every account of [todo] is processed in turn. *)
Lemma users_loop_markers (d : driver) (users : list pystr) :
  forall todo sc fc w,
    let o := users_loop d users todo sc fc w in
    exists outcomes,
      List.length outcomes = List.length todo
      /\ Forall valid_outcome outcomes
      /\ markers (trace o) = batch_markers users (combine todo outcomes)
      /\ result o = Val (sc + count_ok outcomes, fc + count_failed outcomes).
Proof.
  induction todo as [|u rest IH]; intros sc fc w o; subst o.
  - exists []. repeat split; auto. cbn. f_equal. f_equal; lia.
  - cbn [users_loop].
    destruct (@attempt_loop_markers d u MAX_RETRIES 0 sc fc w
                eq_refl (le_n_S _ _ (Nat.le_0_l _)))
      as (j & ok & Hj & Hok & Hm & Hr).
    erewrite bind_val by exact Hr. cbn [result world trace].
    set (w1 := world (attempt_loop d u (seq 0 MAX_RETRIES) sc fc w)).
    set (counts := if ok then (S sc, fc) else (sc, S fc)).
    assert (Hp : exists tp,
               (if negb (str_eqb u (last users []))
                then logger INFO "Waiting {delay:.1f}s before next user..." [];;
                     sleep INTER_USER_DELAY
                else ret tt) w1 = Out (Val tt) w1 tp
               /\ markers tp = pause_after users u).
    { unfold pause_after.
      destruct (negb (str_eqb u (last users []))); eexists;
        (split; reflexivity). }
    destruct Hp as (tp & Ep & Emp).
    match goal with
    | |- context [trace (?m w1)] => remember (m w1) as o2 eqn:Eo2
    end.
    unfold bind at 1 in Eo2. rewrite Ep in Eo2.
    destruct (IH (fst counts) (snd counts) w1) as (outs & Hl & Hv & Hmr & Hrr).
    destruct (users_loop d users rest (fst counts) (snd counts) w1)
      as [r2 w2 t2].
    subst o2. cbn [result world trace] in *.
    exists ((j, ok) :: outs). repeat split.
    + cbn. rewrite Hl. reflexivity.
    + constructor; [|exact Hv]. split; cbn [fst snd]; auto.
    + rewrite !markers_app, Hm, Emp, Hmr. cbn [combine batch_markers flat_map].
      unfold outcome_markers. cbn [fst snd]. rewrite <- !app_assoc.
      reflexivity.
    + rewrite Hrr. unfold counts, count_ok, count_failed.
      destruct ok; cbn [fst snd filter negb List.length]; f_equal; f_equal; lia.
Qed.

Lemma started_are_markers (t : list event) :
  filter is_started (markers t) = filter is_started t.
Proof.
  unfold markers. induction t as [|ev t IH]; cbn [filter]; auto.
  destruct (is_marker ev) eqn:Em; cbn [filter]; rewrite IH; auto.
  assert (Es : is_started ev = false).
  { destruct ev as [A o r|l tpl args|l tpl args|tpl args|dur]; auto.
    destruct l; auto. cbn in *.
    apply orb_false_iff in Em. destruct Em as [Em _]. exact Em. }
  rewrite Es. reflexivity.
Qed.

Lemma started_in_failed_attempts (u : pystr) (c : nat) :
  forall i, filter is_started (failed_attempts u i c) = repeat (started u) c.
Proof.
  induction c as [|c IH]; intro i; cbn [failed_attempts repeat]; auto.
  change (filter is_started (started u :: retry_line u i
                             :: failed_attempts u (S i) c))
    with (started u :: filter is_started (failed_attempts u (S i) c)).
  rewrite IH. reflexivity.
Qed.

Lemma started_in_outcome (u : pystr) (k : nat) (ok : bool) :
  1 <= k ->
  filter is_started (outcome_markers u k ok) = repeat (started u) k.
Proof.
  intro Hk. unfold outcome_markers.
  rewrite filter_app, started_in_failed_attempts.
  replace k with (k - 1 + 1) at 2 by lia. rewrite repeat_app.
  f_equal. destruct ok; reflexivity.
Qed.

End AttemptFacts.

(** ** The batch runner *)

Section BatchFacts.
Context {W : Type} `{Env W}.

Lemma silent_add_cookies (d : driver) (cookies : list cookie) :
  silent (add_cookies d cookies).
Proof.
  induction cookies as [|c rest IH]; cbn [add_cookies]; [silence|].
  apply silent_bind; [|intros; exact IH].
  apply silent_try.
  - unfold make_cookie_dict, lift_res. silence.
  - intro e. unfold cookie_warning. silence.
Qed.

Lemma silent_load_cookies_to_driver (d : driver) (cookies : list cookie) :
  silent (load_cookies_to_driver d cookies).
Proof.
  pose proof (silent_add_cookies d cookies).
  unfold load_cookies_to_driver. silence.
Qed.

Lemma count_ok_failed (outcomes : list (nat * bool)) :
  count_ok outcomes + count_failed outcomes = List.length outcomes.
Proof.
  unfold count_ok, count_failed.
  induction outcomes as [|[k ok] outs IH]; cbn [filter List.length snd]; auto.
  destruct ok; cbn [negb List.length]; lia.
Qed.

Lemma started_in_pause (users : list pystr) (u : pystr) :
  filter is_started (pause_after users u) = [].
Proof. unfold pause_after. destruct (negb _); reflexivity. Qed.

Lemma started_in_batch (users : list pystr) :
  forall todo outcomes,
    Forall valid_outcome outcomes ->
    filter is_started (batch_markers users (combine todo outcomes))
    = flat_map (fun a => repeat (started (fst a)) (fst (snd a)))
               (combine todo outcomes).
Proof.
  induction todo as [|u rest IH]; intros outcomes Hv; [reflexivity|].
  destruct Hv as [|[k ok] outs [Hk _] Hv]; [reflexivity|].
  cbn [combine batch_markers flat_map fst snd] in *.
  rewrite !filter_app, started_in_outcome, started_in_pause by lia.
  fold (batch_markers users (combine rest outs)).
  rewrite IH by exact Hv. rewrite app_nil_r. reflexivity.
Qed.

End BatchFacts.

(** C1.  When the batch completes, the activity log ends with the run
    summary, whose success count and failure count are the numbers of
    accounts recorded as succeeded and as failed, one outcome for each
    account of the list, so that they add up to the number of
    accounts. *)
Theorem run_summary_counts
  {W : Type} `{Env W} (d : driver) (cookies : list cookie)
  (users : list pystr) (w : W) :
  result (run_batch d cookies users w) = Val tt ->
  exists outcomes,
    List.length outcomes = List.length users
    /\ markers (trace (run_batch d cookies users w))
       = EvActivity INFO "Bot ready. Processing {len(users)} users..."
                    [ANat (List.length users)]
         :: batch_markers users (combine users outcomes)
         ++ summary_lines (count_ok outcomes) (count_failed outcomes)
                          (List.length users)
    /\ count_ok outcomes + count_failed outcomes = List.length users.
Proof.
  remember (run_batch d cookies users w) as o eqn:Eo. intro Hres.
  unfold run_batch, log_activity, logger, sleep, call, emit, ret, bind in Eo.
  pose proof (silent_load_cookies_to_driver d cookies w) as Hs.
  destruct (load_cookies_to_driver d cookies w) as [[[]|e] w1 t1];
    cbn [trace] in Hs; [|subst o; discriminate].
  destruct (handle (Get d (py "https://www.tiktok.com")) w1) as [[[]|e] w2];
    [|subst o; discriminate].
  destruct (users_loop_markers d users users 0 0 w2)
    as (outs & Hl & Hv & Hm & Hr).
  destruct (users_loop d users users 0 0 w2) as [r3 w3 t3].
  cbn [result trace] in Hm, Hr. subst r3. cbn [fst snd] in Eo.
  exists outs. split; [exact Hl|]. split.
  - subst o. cbn [trace]. rewrite !markers_app, Hs, Hm.
    cbn [plus]. reflexivity.
  - rewrite count_ok_failed. exact Hl.
Qed.

Lemma run_summary_counts_witness :
  exists outcomes,
    List.length outcomes = 2
    /\ markers (trace (run_batch 1 [] [py "ann"; py "bob"]
                                 (profile_page 3 [])))
       = EvActivity INFO "Bot ready. Processing {len(users)} users..." [ANat 2]
         :: batch_markers [py "ann"; py "bob"]
              (combine [py "ann"; py "bob"] outcomes)
         ++ summary_lines (count_ok outcomes) (count_failed outcomes) 2
    /\ count_ok outcomes + count_failed outcomes = 2.
Proof.
  apply (@run_summary_counts site site_env 1 [] [py "ann"; py "bob"]
           (profile_page 3 [])).
  vm_compute. reflexivity.
Defined.

(** C2.  For one account the batch runner makes [k] attempts with
    [1 <= k <= MAX_RETRIES]: the first [k - 1] fail and are each followed
    by a retry line, and the last one either succeeds, after which no
    further attempt is made and a success is counted, or fails, which is
    counted as a failure only when [k = MAX_RETRIES].  So a workflow that
    fails at every attempt is run exactly [MAX_RETRIES] times, and one
    that first succeeds at attempt [k] is run exactly [k] times. *)
Theorem attempts_stop_at_success_or_limit
  {W : Type} `{Env W} (d : driver) (u : pystr) (sc fc : nat) (w : W) :
  let o := attempt_loop d u (seq 0 MAX_RETRIES) sc fc w in
  exists k ok,
    1 <= k <= MAX_RETRIES
    /\ (ok = true \/ k = MAX_RETRIES)
    /\ attempts_in (trace o) = k
    /\ markers (trace o) = outcome_markers u k ok
    /\ result o = Val (if ok then (S sc, fc) else (sc, S fc)).
Proof.
  intro o.
  destruct (@attempt_loop_markers W _ d u MAX_RETRIES 0 sc fc w
              eq_refl (le_n_S _ _ (Nat.le_0_l _)))
    as (k & ok & Hk & Hok & Hm & Hr).
  fold o in Hm, Hr. exists k, ok. repeat split; auto; try lia.
  unfold attempts_in. rewrite <- started_are_markers, Hm.
  fold (outcome_markers u k ok).
  rewrite started_in_outcome by lia. apply repeat_length.
Qed.

(** C3, on the list "ann", "bob", "ann" with a browser that finds
    nothing.  Every account fails after three attempts.  No pause follows
    the first account, which is not in the final position but bears the
    handle of the last one; the only pause of the run follows the second
    account. *)
Theorem no_pause_after_duplicate_of_last :
  let users := [py "ann"; py "bob"; py "ann"] in
  let o := users_loop 1 users users 0 0 (blank_page []) in
  result o = Val (0, 3)
  /\ markers (trace o)
     = outcome_markers (py "ann") 3 false
       ++ outcome_markers (py "bob") 3 false
       ++ [EvSleep INTER_USER_DELAY]
       ++ outcome_markers (py "ann") 3 false.
Proof. vm_compute. split; reflexivity. Qed.

(** The pause is decided by comparing handles: it follows an account
    exactly when its handle differs from the handle of the last
    account. *)
Lemma pause_compares_handles (users : list pystr) (u : pystr) :
  pause_after users u
  = if list_eq_dec N.eq_dec u (last users []) then []
    else [EvSleep INTER_USER_DELAY].
Proof.
  unfold pause_after, str_eqb.
  destruct (list_eq_dec N.eq_dec u (last users [])); reflexivity.
Qed.

(** On a list without duplicate handles the pause follows every account
    but the last. *)
Lemma pause_positional_without_duplicates (users : list pystr) :
  NoDup users ->
  forall i u,
    nth_error users i = Some u ->
    (pause_after users u = [] <-> i = List.length users - 1).
Proof.
  intros Hnd i u Hi.
  assert (Hlen : i < List.length users)
    by (apply nth_error_Some; rewrite Hi; discriminate).
  assert (Hlast : nth_error users (List.length users - 1)
                  = Some (last users [])).
  { clear - Hlen. destruct users as [|a l]; [cbn in Hlen; lia|].
    clear Hlen. revert a. induction l as [|b l IH]; intro a; [reflexivity|].
    specialize (IH b). cbn [List.length] in *.
    replace (S (S (List.length l)) - 1) with (S (S (List.length l) - 1))
      by lia.
    cbn [nth_error]. rewrite IH. reflexivity. }
  rewrite pause_compares_handles.
  destruct (list_eq_dec N.eq_dec u (last users [])) as [E|E].
  - split; [intros _|reflexivity].
    rewrite NoDup_nth_error in Hnd. apply Hnd; [exact Hlen|].
    rewrite Hi, Hlast, E. reflexivity.
  - split; [discriminate|]. intro Ei. subst i.
    rewrite Hlast in Hi. inversion Hi. congruence.
Qed.

(** C5.  A workflow run returns the value of its body, and false when
    the body raises: no exception leaves it.  In a batch every account of
    the list is started, in list order, between one and [MAX_RETRIES]
    times, whatever happened to the accounts before it, and the loop
    returns its two counters. *)
Theorem workflow_failures_are_isolated {W : Type} `{Env W} (d : driver) :
  (forall u w,
      result (send_streak_to_user d u w)
      = match result (send_streak_body d u w) with
        | Val b => Val b
        | Raise _ => Val false
        end)
  /\ (forall users w,
         let o := users_loop d users users 0 0 w in
         exists outcomes,
           List.length outcomes = List.length users
           /\ Forall valid_outcome outcomes
           /\ filter is_started (trace o)
              = flat_map (fun a => repeat (started (fst a)) (fst (snd a)))
                         (combine users outcomes)
           /\ result o = Val (count_ok outcomes, count_failed outcomes)).
Proof.
  split.
  - intros u w. unfold send_streak_to_user, try_except.
    destruct (send_streak_body d u w) as [[b|e] w1 t1]; [reflexivity|].
    cbn [result].
    assert (Hr : result (send_streak_handler d u e w1) = Val false).
    { unfold send_streak_handler, bind, try_except, logger, emit, call, ret.
      destruct (handle _ w1) as [[?|?] ?]; reflexivity. }
    destruct (send_streak_handler d u e w1) as [r w2 t2]. exact Hr.
  - intros users w o.
    destruct (users_loop_markers d users users 0 0 w)
      as (outs & Hl & Hv & Hm & Hr).
    fold o in Hm, Hr. exists outs. repeat split; auto.
    rewrite <- started_are_markers, Hm. apply started_in_batch. exact Hv.
Qed.

(** ** The empty account list *)

(** C10.  When the cookie file loads and the account file yields no
    handle, the run logs the error and returns: its trace holds the
    opening lines, the two file reads with their log lines, and the error
    line, so no browser is launched, no account is processed and no
    outcome is recorded.  The run returns normally to the scheduler, a
    turn of which never raises, so the scheduler goes on. *)
Theorem empty_list_returns_before_browser
  {W : Type} `{Env W} (w w0 w1 w2 : W) (now : datetime)
  (cookies : list cookie) (lines : list pystr) :
  handle Now w = (Val now, w0) ->
  handle (ReadCookies COOKIES_FILE) w0 = (Val cookies, w1) ->
  handle (ReadLines USERS_FILE) w1 = (Val lines, w2) ->
  load_users_lines lines = [] ->
  run_streak_bot w
  = Out (Val tt) w2
      [EvActivity INFO (rule 70) [];
       EvLog INFO (rule 70) [];
       EvCall Now (Val now);
       EvActivity INFO "DAILY RUN STARTED - {datetime.now()}" [ATime now];
       EvLog INFO "DAILY RUN STARTED - {datetime.now()}" [ATime now];
       EvActivity INFO (rule 70) [];
       EvLog INFO (rule 70) [];
       EvCall (ReadCookies COOKIES_FILE) (Val cookies);
       EvLog INFO "Loaded {len(cookies)} cookies from {COOKIES_FILE}"
             [ANat (List.length cookies); ALit COOKIES_FILE];
       EvCall (ReadLines USERS_FILE) (Val lines);
       EvLog INFO "Loaded {len(users)} users from {USERS_FILE}"
             [ANat 0; ALit USERS_FILE];
       EvActivity ERROR "No users in list.txt" [];
       EvLog ERROR "No users in list.txt" []]
  /\ (forall target last_check w',
         exists last_check',
           result (scheduler_turn target last_check w') = Val last_check').
Proof.
  intros Hnow Hcookies Hlines Hempty. split.
  - unfold run_streak_bot, load_cookies, load_users, log_activity, logger,
      call, emit, ret, try_except, bind.
    rewrite Hnow, Hcookies, Hlines, Hempty. reflexivity.
  - intros target last_check w'. unfold scheduler_turn.
    apply try_total. intros e w3. eexists. reflexivity.
Qed.

Lemma empty_list_returns_before_browser_witness :
  result (run_streak_bot (blank_page [py "# nobody today"; py "  "])) = Val tt
  /\ calls (trace (run_streak_bot (blank_page [py "# nobody today"; py "  "])))
     = [EvCall Now (Val noon);
        EvCall (ReadCookies COOKIES_FILE) (Val []);
        EvCall (ReadLines USERS_FILE) (Val [py "# nobody today"; py "  "])].
Proof.
  pose proof (@empty_list_returns_before_browser site site_env
                (blank_page [py "# nobody today"; py "  "])
                (blank_page [py "# nobody today"; py "  "])
                (blank_page [py "# nobody today"; py "  "])
                (blank_page [py "# nobody today"; py "  "])
                noon [] [py "# nobody today"; py "  "]
                eq_refl eq_refl eq_refl eq_refl) as [Hrun _].
  rewrite Hrun. split; reflexivity.
Defined.

(** * Further properties *)

(** ** Edge cases of the account list *)

Module ListEdge.








End ListEdge.






(** ** Events a computation never emits *)

Section QuietCore.
Context {W : Type} `{Env W}.
Variable p : event -> bool.

Lemma quiet_ret {A} (a : A) : quiet p (ret (W := W) a).
Proof. intro w. reflexivity. Qed.

Lemma quiet_raise {A} (e : exn) : quiet p (raise (W := W) (A := A) e).
Proof. intro w. reflexivity. Qed.

Lemma quiet_emit (ev : event) : p ev = false -> quiet p (emit (W := W) ev).
Proof. intros E w. cbn. rewrite E. reflexivity. Qed.

Lemma quiet_call {A} (o : op A) :
  (forall r, p (EvCall o r) = false) -> quiet p (call o).
Proof.
  intros E w. rewrite call_out. cbn. rewrite E. reflexivity.
Qed.

Lemma quiet_bind {A B} (m : M W A) (k : A -> M W B) :
  quiet p m -> (forall a, quiet p (k a)) -> quiet p (bind m k).
Proof.
  intros Hm Hk w. unfold bind. pose proof (Hm w) as Hmw.
  destruct (m w) as [[a|e] w1 t1]; cbn [trace] in *.
  - pose proof (Hk a w1) as Hkw. destruct (k a w1) as [r w2 t2].
    cbn [trace] in *. rewrite filter_app, Hmw, Hkw. reflexivity.
  - exact Hmw.
Qed.

Lemma quiet_try {A} (m : M W A) (h : exn -> M W A) :
  quiet p m -> (forall e, quiet p (h e)) -> quiet p (try_except m h).
Proof.
  intros Hm Hh w. unfold try_except. pose proof (Hm w) as Hmw.
  destruct (m w) as [[a|e] w1 t1]; cbn [trace] in *.
  - exact Hmw.
  - pose proof (Hh e w1) as Hhw. destruct (h e w1) as [r w2 t2].
    cbn [trace] in *. rewrite filter_app, Hmw, Hhw. reflexivity.
Qed.

Lemma quiet_log_activity (template : string) (args : list arg) (l : level) :
  (forall l' , p (EvActivity l' template args) = false) ->
  (forall l', p (EvLog l' template args) = false) ->
  quiet p (log_activity (W := W) template args l).
Proof.
  intros Ha Hl w. unfold log_activity, logger, bind, emit.
  destruct l; cbn; rewrite Ha, Hl; reflexivity.
Qed.

End QuietCore.

(** Walks through a computation; the facts about [p] on single events
    are taken from the context or computed. *)
Ltac hush :=
  repeat first
    [ progress intros
    | solve [auto]
    | apply quiet_ret
    | apply quiet_raise
    | apply quiet_bind
    | apply quiet_try
    | apply quiet_log_activity; solve [auto | intros; reflexivity]
    | apply quiet_emit; solve [auto | reflexivity]
    | apply quiet_call; solve [auto | intros; reflexivity]
    | match goal with
      | |- quiet _ (logger _ _ _) =>
          apply quiet_emit; solve [auto | reflexivity]
      | |- quiet _ (sleep _) =>
          apply quiet_emit; solve [auto | reflexivity]
      | |- quiet _ (if ?b then _ else _) => destruct b
      | |- quiet _ (match ?x with _ => _ end) => destruct x
      end ].

(** The functions that work on the page emit, besides log lines and
    sleeps, only calls of the operations listed as hypotheses. *)
Section QuietPage.
Context {W : Type} `{Env W}.
Variable p : event -> bool.
Hypothesis p_log : forall l template args, p (EvLog l template args) = false.
Hypothesis p_sleep : forall d, p (EvSleep d) = false.
Hypothesis p_find_xpath :
  forall d selector r, p (EvCall (FindElement d XPATH selector) r) = false.
Hypothesis p_body :
  forall d selector r, p (EvCall (FindElement d TAG_NAME selector) r) = false.
Hypothesis p_text : forall e r, p (EvCall (Text e) r) = false.
Hypothesis p_displayed : forall e r, p (EvCall (IsDisplayed e) r) = false.
Hypothesis p_click : forall e r, p (EvCall (Click e) r) = false.
Hypothesis p_escape :
  forall d k r, p (EvCall (PerformSendKeys d k) r) = false.
Hypothesis p_wait :
  forall d n b selector r, p (EvCall (WaitPresence d n b selector) r) = false.
Hypothesis p_script :
  forall d script e r, p (EvCall (ExecuteScript d script e) r) = false.
Hypothesis p_move : forall d e r, p (EvCall (PerformMoveClick d e) r) = false.
Hypothesis p_keys : forall e k r, p (EvCall (SendKeys e k) r) = false.
Hypothesis p_shot : forall d file r, p (EvCall (SaveScreenshot d file) r) = false.

Lemma quiet_close_loop (d : driver) (selectors : list string) :
  quiet p (close_loop d selectors).
Proof. induction selectors; cbn [close_loop]; hush. Qed.

Lemma quiet_check_and_close_captcha (d : driver) :
  quiet p (check_and_close_captcha d).
Proof.
  pose proof (quiet_close_loop d).
  unfold check_and_close_captcha. hush.
Qed.

Lemma quiet_captcha_guard (d : driver) (n : nat) :
  quiet p (captcha_guard d n).
Proof.
  pose proof (quiet_check_and_close_captcha d).
  induction n; cbn [captcha_guard]; hush.
Qed.

Lemma quiet_find_by_xpath (wait : WebDriverWait) (selectors : list string) :
  forall i, quiet p (find_by_xpath wait i selectors).
Proof.
  induction selectors; intro i; cbn [find_by_xpath];
    unfold until_presence; hush.
Qed.

Lemma quiet_find_by_css (wait : WebDriverWait) (selectors : list string) :
  quiet p (find_by_css wait selectors).
Proof.
  induction selectors; cbn [find_by_css]; unfold until_presence; hush.
Qed.

Lemma quiet_find_message_button (d : driver) (wait : WebDriverWait) :
  quiet p (find_message_button d wait).
Proof.
  pose proof (quiet_find_by_xpath wait).
  pose proof (quiet_find_by_css wait).
  unfold find_message_button. hush.
Qed.

Lemma quiet_click_loop (methods : list (string * M W unit)) :
  Forall (fun m => quiet p (snd m)) methods -> quiet p (click_loop methods).
Proof.
  induction 1 as [|[name f] rest Hf Hr IH]; cbn [click_loop]; hush.
Qed.

Lemma quiet_click_message_button (d : driver) (button : option elem) :
  quiet p (click_message_button d button).
Proof.
  destruct button as [b|]; cbn [click_message_button]; [|hush].
  apply quiet_bind; [hush | intros _].
  apply quiet_click_loop. unfold click_methods.
  repeat constructor; cbn [snd]; hush.
Qed.

Lemma quiet_find_input (wait : WebDriverWait) (selectors : list string) :
  forall cur, quiet p (find_input wait selectors cur).
Proof.
  induction selectors; intro cur; cbn [find_input];
    unfold until_presence; hush.
Qed.

Lemma quiet_human_type (element : elem) (text : pystr) :
  quiet p (human_type element text).
Proof. induction text; cbn [human_type]; hush. Qed.

Lemma quiet_send_streak_handler (d : driver) (u : pystr) (e : exn) :
  quiet p (send_streak_handler d u e).
Proof. unfold send_streak_handler. hush. Qed.

End QuietPage.

(** ** More on the captcha guard *)

Section GuardFacts.
Context {W : Type} `{Env W}.

Lemma count_app (p : event -> bool) (t1 t2 : list event) :
  count p (t1 ++ t2) = count p t1 + count p t2.
Proof. unfold count. rewrite filter_app. apply length_app. Qed.

Lemma quiet_count (p : event -> bool) {A} (m : M W A) (w : W) :
  quiet p m -> count p (trace (m w)) = 0.
Proof. intro Hq. unfold count. rewrite Hq. reflexivity. Qed.

Lemma count_cons_false (p : event -> bool) (ev : event) (t : list event) :
  p ev = false -> count p (ev :: t) = count p t.
Proof. intro E. unfold count. cbn [filter]. rewrite E. reflexivity. Qed.

Lemma count_cons_true (p : event -> bool) (ev : event) (t : list event) :
  p ev = true -> count p (ev :: t) = S (count p t).
Proof. intro E. unfold count. cbn [filter]. rewrite E. reflexivity. Qed.

Lemma count_nil (p : event -> bool) : count p [] = 0.
Proof. reflexivity. Qed.

Lemma quiet_existsb (p : event -> bool) (t : list event) :
  filter p t = [] -> existsb p t = false.
Proof.
  induction t as [|ev t IH]; cbn [filter existsb]; auto.
  destruct (p ev); [discriminate|]. exact IH.
Qed.

(** The dismissals that the loop over the close buttons brings about. *)
Lemma close_loop_dismissals (d : driver) (selectors : list string) :
  forall w,
    let o := close_loop d selectors w in
    (result o = Val (Some true)
     /\ count (fun ev => is_dismissal ev && completed ev) (trace o) = 1
     /\ dismissal_attempted (trace o) = true)
    \/ (result o = Val None
        /\ count (fun ev => is_dismissal ev && completed ev) (trace o) = 0).
Proof.
  set (dc := fun ev => is_dismissal ev && completed ev).
  induction selectors as [|selector rest IH]; intros w o; subst o.
  - right. split; reflexivity.
  - assert (Hrec : forall w' pre,
               count dc pre = 0 ->
               forall o,
                 o = (match close_loop d rest w' with
                      | Out r w2 t2 => Out r w2 (pre ++ t2)
                      end) ->
                 (result o = Val (Some true) /\ count dc (trace o) = 1
                  /\ dismissal_attempted (trace o) = true)
                 \/ (result o = Val None /\ count dc (trace o) = 0)).
    { intros w' pre Hpre o Eo. pose proof (IH w') as Hih. cbv zeta in Hih.
      destruct (close_loop d rest w') as [r w2 t2]. subst o.
      cbn [result world trace] in *.
      rewrite count_app, Hpre. cbn [plus].
      destruct Hih as [(Er & Ec & Ea)|(Er & Ec)]; [left|right];
        repeat split; auto.
      unfold dismissal_attempted in *. rewrite existsb_app, Ea.
      apply orb_true_r. }
    cbn [close_loop].
    unfold bind, try_except, logger, sleep, emit, call, ret.
    destruct (handle (FindElement d XPATH selector) w) as [[btn|ex] w1] eqn:E1;
      cbn [result world trace].
    + destruct (handle (IsDisplayed btn) w1) as [[[|]|ex] w2] eqn:E2;
        cbn [result world trace].
      * destruct (handle (Click btn) w2) as [[[]|ex] w3] eqn:E3;
          cbn [result world trace].
        -- left. repeat split; reflexivity.
        -- eapply Hrec; [|reflexivity]. reflexivity.
      * eapply Hrec; [|reflexivity]. reflexivity.
      * eapply Hrec; [|reflexivity]. reflexivity.
    + eapply Hrec; [|reflexivity]. reflexivity.
Qed.

Lemma quiet_challenge_close_loop (d : driver) (selectors : list string) :
  quiet shows_challenge (close_loop d selectors).
Proof. apply quiet_close_loop; intros; reflexivity. Qed.

End GuardFacts.

(** X4.  The captcha guard attempts a dismissal exactly when the page
    text it read shows a challenge: it touches nothing on a page without
    challenge, and always tries something on a page with one.  At most
    one dismissal action completes in one call of the guard. *)
Theorem captcha_guard_acts_only_on_challenge
  {W : Type} `{Env W} (d : driver) (w : W) :
  let o := check_and_close_captcha d w in
  dismissal_attempted (trace o) = challenge_detected (trace o)
  /\ count (fun ev => is_dismissal ev && completed ev) (trace o) <= 1.
Proof.
  intro o. remember (check_and_close_captcha d w) as o' eqn:Eo. subst o.
  unfold check_and_close_captcha, bind, try_except, logger, sleep, emit,
    call, ret in Eo.
  destruct (handle (FindElement d TAG_NAME "body") w) as [[body|ex] w1] eqn:E1;
    cbn [result world trace] in Eo;
    [|subst o'; split; [reflexivity | cbn; lia]].
  destruct (handle (Text body) w1) as [[text|ex] w2] eqn:E2;
    cbn [result world trace] in Eo;
    [|subst o'; split; [reflexivity | cbn; lia]].
  destruct (captcha_found (str_lower text)) eqn:Ef;
    cbn [result world trace] in Eo.
  - pose proof (close_loop_dismissals d close_selectors w2) as Hc.
    pose proof (quiet_challenge_close_loop d close_selectors w2) as Hq.
    cbv zeta in Hc.
    destruct (close_loop d close_selectors w2) as [rc wc tc].
    cbn [result world trace] in Hc, Hq, Eo.
    destruct Hc as [(Er & Ec & Ea)|(Er & Ec)]; subst rc;
      cbn [result world trace] in Eo.
    + subst o'. cbn [result world trace]. split.
      * unfold challenge_detected, dismissal_attempted in *.
        cbn [existsb app shows_challenge is_dismissal orb].
        rewrite Ef, !existsb_app, Ea. cbn [orb]. rewrite ?orb_true_r.
        reflexivity.
      * rewrite !count_app, Ec. cbn. lia.
    + destruct (handle (PerformSendKeys d ESCAPE) wc)
        as [[[]|ex] w3] eqn:E3; cbn [result world trace] in Eo;
        subst o'; cbn [result world trace]; (split;
        [ unfold challenge_detected, dismissal_attempted in *;
          cbn [existsb app shows_challenge is_dismissal orb];
          rewrite Ef, !existsb_app; cbn [existsb is_dismissal orb];
          rewrite ?orb_true_r; reflexivity
        | rewrite !count_app, Ec; cbn; lia ]).
  - subst o'. cbn [result world trace]. split.
    + unfold challenge_detected, dismissal_attempted.
      cbn [existsb app shows_challenge is_dismissal orb].
      rewrite Ef. reflexivity.
    + cbn. lia.
Qed.

(** Counts over a trace whose shape is known. *)
Ltac count_norm :=
  repeat first
    [ rewrite count_app
    | rewrite count_nil
    | rewrite count_cons_false by reflexivity
    | rewrite count_cons_true by reflexivity ].

Section BoundFacts.
Context {W : Type} `{Env W}.

Lemma at_most_quiet (p : event -> bool) {A} (m : M W A) (n : nat) :
  quiet p m -> at_most p n m.
Proof. intros Hq w. rewrite (quiet_count w Hq). lia. Qed.

Lemma at_most_bind (p : event -> bool) {A B} (m : M W A) (k : A -> M W B)
  (a b : nat) :
  at_most p a m -> (forall x, at_most p b (k x)) ->
  at_most p (a + b) (bind m k).
Proof.
  intros Hm Hk w. unfold bind. pose proof (Hm w) as Hmw.
  destruct (m w) as [[x|e] w1 t1]; cbn [trace] in *.
  - pose proof (Hk x w1) as Hkw. destruct (k x w1) as [r w2 t2].
    cbn [trace] in *. rewrite count_app. lia.
  - lia.
Qed.

Lemma at_most_bind_l (p : event -> bool) {A B} (m : M W A) (k : A -> M W B)
  (n : nat) :
  quiet p m -> (forall x, at_most p n (k x)) -> at_most p n (bind m k).
Proof.
  intros Hm Hk. apply (@at_most_bind p A B m k 0 n); auto.
  apply at_most_quiet. exact Hm.
Qed.

Lemma at_most_try (p : event -> bool) {A} (m : M W A) (h : exn -> M W A)
  (n : nat) :
  at_most p n m -> (forall e, quiet p (h e)) -> at_most p n (try_except m h).
Proof.
  intros Hm Hh w. unfold try_except. pose proof (Hm w) as Hmw.
  destruct (m w) as [[x|e] w1 t1]; cbn [trace] in *; [exact Hmw|].
  pose proof (quiet_count w1 (Hh e)) as Hhw.
  destruct (h e w1) as [r w2 t2]. cbn [trace] in *.
  rewrite count_app. lia.
Qed.

(** One call of the guard looks the page body up once. *)
Lemma check_looks_once (d : driver) :
  at_most is_check 1 (check_and_close_captcha d).
Proof.
  assert (Hq : quiet is_check (close_loop d close_selectors))
    by (apply quiet_close_loop; intros; reflexivity).
  unfold check_and_close_captcha.
  apply at_most_try; [|intro e; hush].
  apply (@at_most_bind is_check _ _ _ _ 1 0).
  - intro w. rewrite call_out. cbn. lia.
  - intro body. apply at_most_quiet. hush.
Qed.

Lemma check_returns (d : driver) (w : W) :
  exists b, result (check_and_close_captcha d w) = Val b.
Proof.
  unfold check_and_close_captcha. apply try_total.
  intros e w'. exists false. reflexivity.
Qed.

Lemma captcha_guard_bound (d : driver) (n : nat) :
  forall w,
    result (captcha_guard d n w) = Val tt
    /\ count is_check (trace (captcha_guard d n w)) <= n.
Proof.
  induction n as [|n IH]; intro w; [split; [reflexivity | cbn; lia]|].
  remember (captcha_guard d (S n) w) as o eqn:Eo.
  cbn [captcha_guard] in Eo. unfold bind at 1 in Eo.
  destruct (check_returns d w) as [b Eb].
  pose proof (check_looks_once d w) as Hc.
  destruct (check_and_close_captcha d w) as [r w1 t1].
  cbn [result trace] in Eb, Hc. subst r.
  destruct b.
  - unfold sleep in Eo. rewrite bind_emit in Eo.
    destruct (IH w1) as [Er Ec].
    destruct (captcha_guard d n w1) as [r2 w2 t2].
    cbn [result world trace] in *. subst o. cbn [result trace].
    split; [exact Er|].
    rewrite count_app. change (count is_check (EvSleep (Millis 2000) :: t2))
      with (count is_check t2). lia.
  - cbn [ret result trace] in Eo. subst o. cbn [result trace].
    split; [reflexivity|]. rewrite app_nil_r. lia.
Qed.

End BoundFacts.

(** Brings the facts about the working functions of the page into the
    context, for a predicate that is false on all their events. *)
Ltac page_facts p d :=
  let tac := (intros; first [apply quiet_find_message_button
                            | apply quiet_click_message_button
                            | apply quiet_find_input
                            | apply quiet_human_type
                            | apply quiet_send_streak_handler
                            | apply quiet_check_and_close_captcha
                            | apply quiet_captcha_guard];
              intros; reflexivity) in
  try (assert (forall wait, quiet p (find_message_button d wait)) by tac);
  try (assert (forall b, quiet p (click_message_button d b)) by tac);
  try (assert (forall wait sels cur, quiet p (find_input wait sels cur))
        by tac);
  try (assert (forall e text, quiet p (human_type e text)) by tac);
  try (assert (forall u e, quiet p (send_streak_handler d u e)) by tac);
  try (assert (quiet p (check_and_close_captcha d)) by tac);
  try (assert (forall n, quiet p (captcha_guard d n)) by tac).

Section WorkflowBounds.
Context {W : Type} `{Env W}.

Lemma send_checks_bound (d : driver) (u : pystr) :
  at_most is_check (CAPTCHA_CHECK_ATTEMPTS + 1) (send_streak_to_user d u).
Proof.
  page_facts is_check d.
  unfold send_streak_to_user. apply at_most_try; [|hush].
  unfold send_streak_body. cbv zeta.
  do 6 (apply at_most_bind_l; [hush | intros _]).
  apply at_most_bind; [intro w; apply captcha_guard_bound | intros _].
  apply at_most_bind_l; [hush | intros [button|]];
    [|apply at_most_quiet; hush].
  apply at_most_bind_l; [hush | intros clicked].
  destruct (negb clicked); [apply at_most_quiet; hush|].
  apply (@at_most_bind W is_check _ _ _ _ 1 0);
    [apply check_looks_once | intros _].
  apply at_most_quiet. hush.
Qed.

End WorkflowBounds.

(** X5.  The captcha guard of a page load checks the page at most as
    many times as it is allowed attempts and never raises; one workflow
    run checks the page at most [CAPTCHA_CHECK_ATTEMPTS + 1] times, the
    last time after the click on the message button. *)
Theorem captcha_checks_are_bounded
  {W : Type} `{Env W} (d : driver) :
  (forall n w,
      result (captcha_guard d n w) = Val tt
      /\ count is_check (trace (captcha_guard d n w)) <= n)
  /\ (forall u w,
         count is_check (trace (send_streak_to_user d u w))
         <= CAPTCHA_CHECK_ATTEMPTS + 1).
Proof.
  split.
  - intros n w. apply captcha_guard_bound.
  - intros u w. apply send_checks_bound.
Qed.

(** ** The message input, typing, waits and cookies *)

Section InputFacts.
Context {W : Type} `{Env W}.

Lemma last_located_app (t1 t2 : list event) (cur : option elem) :
  last_located (t1 ++ t2) cur = last_located t2 (last_located t1 cur).
Proof. apply fold_left_app. Qed.

Lemma find_input_spec (wait : WebDriverWait) (selectors : list string) :
  forall cur w,
    result (find_input wait selectors cur w)
    = Val (last_located (trace (find_input wait selectors cur w)) cur).
Proof.
  induction selectors as [|selector rest IH]; intros cur w; [reflexivity|].
  remember (find_input wait (selector :: rest) cur w) as o eqn:Eo.
  cbn [find_input] in Eo.
  unfold bind, try_except, logger, emit, until_presence, call, ret in Eo.
  destruct (handle (WaitPresence (wait_driver wait) (wait_timeout wait)
                                 XPATH selector) w) as [[e|ex] w1] eqn:E1;
    cbn [result world trace] in Eo.
  - destruct (handle (IsDisplayed e) w1) as [[[|]|ex] w2] eqn:E2;
      cbn [result world trace] in Eo.
    + subst o. reflexivity.
    + pose proof (IH (Some e) w2) as Hrec.
      destruct (find_input wait rest (Some e) w2) as [r w3 t3].
      cbn [result trace] in Hrec. subst o. cbn [result trace].
      rewrite Hrec, last_located_app. reflexivity.
    + pose proof (IH (Some e) w2) as Hrec.
      destruct (find_input wait rest (Some e) w2) as [r w3 t3].
      cbn [result trace] in Hrec. subst o. cbn [result trace].
      rewrite Hrec, last_located_app. reflexivity.
  - pose proof (IH cur w1) as Hrec.
    destruct (find_input wait rest cur w1) as [r w3 t3].
    cbn [result trace] in Hrec. subst o. cbn [result trace].
    rewrite Hrec, last_located_app. reflexivity.
Qed.


(** Typing sends the characters in order and pauses after each one; it
    stops at the first key that the element refuses. *)
Lemma human_type_spec (element : elem) (text : pystr) :
  forall w,
    let o := human_type element text w in
    exists n,
      keys_sent (trace o) = map Char (firstn n text)
      /\ count is_typing_pause (trace o) = n
      /\ ((result o = Val tt /\ n = List.length text)
          \/ (exists ex, result o = Raise ex /\ n < List.length text)).
Proof.
  induction text as [|c text IH]; intros w o; subst o.
  - exists 0. repeat split. left. split; reflexivity.
  - remember (human_type element (c :: text) w) as o eqn:Eo.
    cbn [human_type] in Eo.
    unfold bind at 1, call in Eo.
    destruct (handle (SendKeys element (Char c)) w) as [[[]|ex] w1] eqn:E1.
    + unfold sleep in Eo. rewrite bind_emit in Eo.
      destruct (IH w1) as (n & Hk & Hc & Hr).
      destruct (human_type element text w1) as [r w2 t2].
      cbn [result world trace] in *. subst o. cbn [result trace].
      exists (S n). repeat split.
      * unfold keys_sent in *. cbn [app flat_map key_of firstn map].
        rewrite Hk. reflexivity.
      * cbn [app]. unfold count in *. cbn [filter is_typing_pause TYPING_DELAY].
        cbn [List.length]. rewrite Hc. reflexivity.
      * destruct Hr as [[Er En]|[ex [Er En]]].
        -- left. split; [exact Er|]. cbn [List.length]. lia.
        -- right. exists ex. split; [exact Er|]. cbn [List.length]. lia.
    + subst o. cbn [result trace]. exists 0. repeat split.
      right. exists ex. split; [reflexivity|]. cbn [List.length]. lia.
Qed.

End InputFacts.

(** X6.  The search for the message input never raises, and what it
    returns is the element of the last wait that returned, whether that
    element is displayed or not: it reports no input only when no
    locator expression located anything. *)
Theorem find_input_keeps_last_located
  {W : Type} `{Env W} (wait : WebDriverWait) (w : W) :
  let o := find_input wait input_selectors None w in
  result o = Val (last_located (trace o) None).
Proof. intro o. apply find_input_spec. Qed.

(** X7.  [human_type] sends the characters of the text in order, one
    key press each, and pauses once after each key sent.  It returns
    when the whole text has been sent, and raises at the first key press
    that fails, the characters before it having been sent. *)
Theorem human_type_sends_text_in_order
  {W : Type} `{Env W} (element : elem) (text : pystr) (w : W) :
  let o := human_type element text w in
  exists n,
    keys_sent (trace o) = map Char (firstn n text)
    /\ count is_typing_pause (trace o) = n
    /\ ((result o = Val tt /\ n = List.length text)
        \/ (exists ex, result o = Raise ex /\ n < List.length text)).
Proof. apply human_type_spec. Qed.

Section WaitFacts.
Context {W : Type} `{Env W}.

(** What a loop over locator expressions costs in waits. *)
Ltac wait_rec IH :=
  let Hrec := fresh "Hrec" in
  pose proof IH as Hrec; cbv zeta in Hrec;
  match goal with
  | Eo : _ = match ?o with Out _ _ _ => _ end |- _ => destruct o
  end;
  cbn [result world trace] in *;
  match goal with Eo : ?o = Out _ _ _ |- _ => subst o end;
  cbn [result trace];
  rewrite ?count_app;
  destruct Hrec as [[e' [Er Hc]]|[Er Hc]];
  [ left; exists e'; split; [exact Er|]
  | right; split; [exact Er|] ];
  cbn [count filter is_wait List.length length app] in *;
  unfold count in *; cbn [filter is_wait List.length] in *; lia.

Lemma find_by_xpath_waits (wait : WebDriverWait) (selectors : list string) :
  forall i w,
    let o := find_by_xpath wait i selectors w in
    (exists e, result o = Val (Some e)
               /\ 1 <= count is_wait (trace o) <= List.length selectors)
    \/ (result o = Val None
        /\ count is_wait (trace o) = List.length selectors).
Proof.
  induction selectors as [|selector rest IH]; intros i w o; subst o.
  - right. split; reflexivity.
  - remember (find_by_xpath wait i (selector :: rest) w) as o eqn:Eo.
    cbn [find_by_xpath] in Eo.
    unfold bind, try_except, logger, emit, until_presence, call, ret in Eo.
    destruct (handle (WaitPresence (wait_driver wait) (wait_timeout wait)
                                   XPATH selector) w) as [[e|ex] w1] eqn:E1;
      cbn [result world trace] in Eo.
    + destruct (handle (IsDisplayed e) w1) as [[[|]|ex] w2] eqn:E2;
        cbn [result world trace] in Eo.
      * subst o. left. exists e. split; [reflexivity|].
        cbn [List.length]. cbn. lia.
      * wait_rec (IH (S i) w2).
      * wait_rec (IH (S i) w2).
    + wait_rec (IH (S i) w1).
Qed.

Lemma find_by_css_waits (wait : WebDriverWait) (selectors : list string) :
  forall w,
    let o := find_by_css wait selectors w in
    (exists e, result o = Val (Some e)
               /\ 1 <= count is_wait (trace o) <= List.length selectors)
    \/ (result o = Val None
        /\ count is_wait (trace o) = List.length selectors).
Proof.
  induction selectors as [|selector rest IH]; intros w o; subst o.
  - right. split; reflexivity.
  - remember (find_by_css wait (selector :: rest) w) as o eqn:Eo.
    cbn [find_by_css] in Eo.
    unfold bind, try_except, logger, emit, until_presence, call, ret in Eo.
    destruct (handle (WaitPresence (wait_driver wait) (wait_timeout wait)
                                   CSS_SELECTOR selector) w)
      as [[e|ex] w1] eqn:E1;
      cbn [result world trace] in Eo.
    + destruct (handle (IsDisplayed e) w1) as [[[|]|ex] w2] eqn:E2;
        cbn [result world trace] in Eo.
      * subst o. left. exists e. split; [reflexivity|].
        cbn [List.length]. cbn. lia.
      * wait_rec (IH w2).
      * wait_rec (IH w2).
    + wait_rec (IH w1).
Qed.

End WaitFacts.

(** X8.  Looking for the message button costs at most nine waits, one
    for each locator expression: between one and nine when an element is
    returned, and exactly nine when none is found. *)
Theorem find_message_button_waits_at_most_nine
  {W : Type} `{Env W} (d : driver) (wait : WebDriverWait) (w : W) :
  let o := find_message_button d wait w in
  (exists e, result o = Val (Some e) /\ 1 <= count is_wait (trace o) <= 9)
  \/ (result o = Val None /\ count is_wait (trace o) = 9).
Proof.
  intro o. remember (find_message_button d wait w) as o' eqn:Eo. subst o.
  unfold find_message_button, logger in Eo. rewrite bind_emit in Eo.
  match type of Eo with
  | context [trace (?m w)] => remember (m w) as o2 eqn:Eo2
  end.
  assert (Ho2 : (exists e, result o2 = Val (Some e)
                           /\ 1 <= count is_wait (trace o2) <= 9)
                \/ (result o2 = Val None /\ count is_wait (trace o2) = 9)).
  { clear Eo. unfold bind at 1 in Eo2.
    pose proof (find_by_xpath_waits wait xpath_selectors 1 w) as Hx.
    cbv zeta in Hx.
    destruct (find_by_xpath wait 1 xpath_selectors w) as [rx wx tx].
    cbn [result world trace] in Hx, Eo2.
    cbn [List.length xpath_selectors] in Hx.
    destruct Hx as [[e [Er Hc]]|[Er Hc]]; subst rx.
    - cbn [ret result world trace] in Eo2. subst o2. cbn [result trace].
      left. exists e. split; [reflexivity|]. rewrite app_nil_r. lia.
    - unfold bind at 1 in Eo2.
      pose proof (find_by_css_waits wait css_selectors wx) as Hy.
      cbv zeta in Hy.
      destruct (find_by_css wait css_selectors wx) as [ry wy ty].
      cbn [result world trace] in Hy, Eo2.
      cbn [List.length css_selectors] in Hy.
      destruct Hy as [[e [Er' Hc']]|[Er' Hc']]; subst ry.
      + cbn [ret result world trace] in Eo2. subst o2. cbn [result trace].
        left. exists e. split; [reflexivity|].
        rewrite app_nil_r, count_app. lia.
      + unfold logger in Eo2. rewrite bind_emit in Eo2.
        cbn [ret result world trace] in Eo2. subst o2. cbn [result trace].
        right. split; [reflexivity|].
        rewrite !count_app, count_cons_false, count_nil by reflexivity. lia. }
  subst o'. cbn [result trace].
  rewrite count_cons_false by reflexivity. exact Ho2.
Qed.

Section CookieFacts.
Context {W : Type} `{Env W}.

(** One turn of the loop over the cookies: an object is added or
    skipped with one warning; any other item raises out of the handler. *)
Lemma add_cookie_step (d : driver) (c : cookie) (w : W) :
  let o := try_except
             (cookie_dict <- make_cookie_dict c;;
              call (AddCookie d cookie_dict))
             (cookie_warning c) w in
  result o = (if is_object c then Val tt else Raise (Exn "AttributeError"))
  /\ count is_cookie_added (trace o) + count is_warning (trace o)
     = (if is_object c then 1 else 0).
Proof.
  intro o. subst o.
  destruct c as [| b | z | f | s | items | fields];
    try (split; reflexivity).
  unfold make_cookie_dict, cookie_warning, lift_res, bind, try_except,
    logger, emit, call, ret, raise.
  cbn [is_object].
  destruct (dict_lookup (py "expirationDate") fields) as [v|];
    [destruct (py_int v) as [z|ex]|]; cbn [result world trace];
    try (split; reflexivity);
    destruct (handle (AddCookie d _) w) as [[[]|ex] w1];
    cbn [result world trace]; split; reflexivity.
Qed.

Lemma add_cookies_spec (d : driver) (cookies : list cookie) :
  forall w,
    let o := add_cookies d cookies w in
    result o = (if forallb is_object cookies then Val tt
                else Raise (Exn "AttributeError"))
    /\ count is_cookie_added (trace o) + count is_warning (trace o)
       = List.length (leading_objects cookies).
Proof.
  induction cookies as [|c rest IH]; intros w o; subst o.
  - split; reflexivity.
  - remember (add_cookies d (c :: rest) w) as o eqn:Eo.
    cbn [add_cookies] in Eo. unfold bind at 1 in Eo.
    destruct (add_cookie_step d c w) as [Er Hc]. cbv zeta in Er, Hc.
    destruct (try_except
                (cookie_dict <- make_cookie_dict c;;
                 call (AddCookie d cookie_dict))
                (cookie_warning c) w) as [r w1 t1].
    cbn [result trace] in Er, Hc. cbn [forallb leading_objects].
    destruct (is_object c); subst r.
    + destruct (IH w1) as [Er Hr].
      destruct (add_cookies d rest w1) as [r w2 t2].
      cbn [result world trace] in *. subst o. cbn [result trace andb].
      split; [exact Er|]. rewrite !count_app. cbn [List.length]. lia.
    + subst o. cbn [result trace andb List.length]. split; [reflexivity|lia].
Qed.

End CookieFacts.

(** X9.  Handing the cookies to the browser raises in two cases only.
    When the first navigation raises, nothing is added and its exception
    is raised.  When an item of the cookie list is not an object, the
    loop stops at the first such item with [AttributeError], raised by
    the handler's own [cookie.get].  Otherwise the function returns.  In
    every case each object before the first item that is not one has
    either been added or been skipped with one warning: an expiry that
    does not convert, or a cookie that the browser refuses, does not stop
    the others. *)
Theorem cookies_are_added_or_skipped
  {W : Type} `{Env W} (d : driver) (cookies : list cookie) (w : W) :
  let o := load_cookies_to_driver d cookies w in
  match fst (handle (Get d (py "https://www.tiktok.com")) w) with
  | Val _ =>
      result o = (if forallb is_object cookies then Val tt
                  else Raise (Exn "AttributeError"))
      /\ count is_cookie_added (trace o) + count is_warning (trace o)
         = List.length (leading_objects cookies)
  | Raise e =>
      result o = Raise e /\ count is_cookie_added (trace o) = 0
  end.
Proof.
  intro o. remember (load_cookies_to_driver d cookies w) as o' eqn:Eo.
  subst o. unfold load_cookies_to_driver in Eo.
  unfold bind at 1, call in Eo.
  destruct (handle (Get d (py "https://www.tiktok.com")) w)
    as [[[]|e] w1]; cbn [fst].
  - unfold sleep in Eo. rewrite bind_emit in Eo.
    match type of Eo with
    | context [trace (?m w1)] => remember (m w1) as o2 eqn:Eo2
    end.
    unfold bind at 1 in Eo2.
    destruct (add_cookies_spec d cookies w1) as [Er Hc].
    destruct (add_cookies d cookies w1) as [r w2 t2].
    cbn [result trace] in Er, Hc. subst r.
    destruct (forallb is_object cookies).
    + cbn [logger emit] in Eo2. subst o2. cbn [result world trace] in Eo.
      subst o'. cbn [result trace]. split; [reflexivity|].
      count_norm. lia.
    + subst o2. cbn [result world trace] in Eo.
      subst o'. cbn [result trace]. split; [reflexivity|].
      count_norm. lia.
  - subst o'. split; reflexivity.
Qed.

(** ** How a workflow run ends *)

Section ClosingFacts.
Context {W : Type} `{Env W}.













End ClosingFacts.




Section NavigationFacts.
Context {W : Type} `{Env W}.

Lemma body_navigates_once (d : driver) (u : pystr) (w : W) :
  exists r,
    filter is_navigation (trace (send_streak_body d u w))
    = [EvCall (Get d (profile_url_of u)) r].
Proof.
  page_facts is_navigation d.
  remember (send_streak_body d u w) as o eqn:Eo.
  unfold send_streak_body, logger at 1 2 3 4 in Eo. cbv zeta in Eo.
  rewrite !bind_emit in Eo.
  match type of Eo with
  | context [trace (?m w)] => remember (m w) as o2 eqn:Eo2
  end.
  assert (Ho2 : exists r, filter is_navigation (trace o2)
                          = [EvCall (Get d (profile_url_of u)) r]).
  { clear Eo. unfold bind at 1 in Eo2. unfold call at 1 in Eo2.
    fold (profile_url_of u) in Eo2.
    destruct (handle (Get d (profile_url_of u)) w) as [[[]|e] w1].
    - match type of Eo2 with
      | context [match ?m w1 with Out _ _ _ => _ end] =>
          assert (Hq : quiet is_navigation m) by hush;
          pose proof (Hq w1) as Hq1; destruct (m w1) as [r2 w2 t2]
      end.
      cbn [trace] in Hq1. subst o2. cbn [trace app filter is_navigation].
      rewrite Hq1. exists (Val tt). reflexivity.
    - subst o2. exists (Raise e). reflexivity. }
  subst o. cbn [trace filter is_navigation]. exact Ho2.
Qed.

End NavigationFacts.

(** X12.  A workflow run navigates exactly once, to the profile address
    of the handle with its leading at-signs removed; nothing it does
    afterwards, captcha handling and failure handling included, loads
    another page. *)
Theorem workflow_navigates_once
  {W : Type} `{Env W} (d : driver) (u : pystr) (w : W) :
  exists r,
    filter is_navigation (trace (send_streak_to_user d u w))
    = [EvCall (Get d (profile_url_of u)) r].
Proof.
  destruct (body_navigates_once d u w) as [r Hb]. exists r.
  unfold send_streak_to_user, try_except.
  destruct (send_streak_body d u w) as [[b|e] w1 t1]; cbn [trace] in *;
    [exact Hb|].
  assert (Hq : quiet is_navigation (send_streak_handler d u e))
    by (apply quiet_send_streak_handler; intros; reflexivity).
  pose proof (Hq w1) as Hq1.
  destruct (send_streak_handler d u e w1) as [r2 w2 t2]. cbn [trace] in *.
  rewrite filter_app, Hb, Hq1. reflexivity.
Qed.

(** ** The browser over a whole run *)

Section LifecycleFacts.
Context {W : Type} `{Env W}.

Lemma quiet_weaken (p q : event -> bool) (t : list event) :
  (forall ev, p ev = true -> q ev = true) ->
  filter q t = [] -> filter p t = [].
Proof.
  intros Hpq. induction t as [|ev t IH]; cbn [filter]; auto.
  destruct (q ev) eqn:Eq; [discriminate|]. intro Ht.
  destruct (p ev) eqn:Ep; [|auto].
  rewrite (Hpq ev Ep) in Eq. discriminate.
Qed.

Lemma lifecycle_counts (t : list event) :
  filter lifecycle t = [] ->
  count is_quit t = 0 /\ count setup_done t = 0.
Proof.
  intro Hq. unfold count. split.
  - rewrite (@quiet_weaken is_quit lifecycle t); auto.
    intros ev E. unfold lifecycle. rewrite E. reflexivity.
  - rewrite (@quiet_weaken setup_done lifecycle t); auto.
    intros ev E. unfold lifecycle.
    destruct ev as [A o r|l tpl args|l tpl args|tpl args|dur];
      try discriminate.
    destruct o; try discriminate. apply orb_true_r.
Qed.

Lemma quiet_lifecycle_send (d : driver) (u : pystr) :
  quiet lifecycle (send_streak_to_user d u).
Proof.
  page_facts lifecycle d.
  unfold send_streak_to_user. apply quiet_try; [|hush].
  unfold send_streak_body. cbv zeta. hush.
Qed.

Lemma quiet_lifecycle_attempts (d : driver) (u : pystr)
  (attempts : list nat) :
  forall sc fc, quiet lifecycle (attempt_loop d u attempts sc fc).
Proof.
  pose proof (quiet_lifecycle_send d u).
  induction attempts; intros sc fc; cbn [attempt_loop]; hush.
Qed.

Lemma quiet_lifecycle_users (d : driver) (users todo : list pystr) :
  forall sc fc, quiet lifecycle (users_loop d users todo sc fc).
Proof.
  pose proof (quiet_lifecycle_attempts d).
  induction todo; intros sc fc; cbn [users_loop]; hush.
Qed.

Lemma quiet_lifecycle_cookies (d : driver) (cookies : list cookie) :
  quiet lifecycle (add_cookies d cookies).
Proof.
  induction cookies as [|c rest IH]; cbn [add_cookies]; [hush|].
  apply quiet_bind; [|intros; exact IH].
  apply quiet_try.
  - unfold make_cookie_dict, lift_res. hush.
  - intro e. unfold cookie_warning. hush.
Qed.

Lemma quiet_lifecycle_batch (d : driver) (cookies : list cookie)
  (users : list pystr) :
  quiet lifecycle (run_batch d cookies users).
Proof.
  pose proof (quiet_lifecycle_cookies d cookies).
  pose proof (quiet_lifecycle_users d users users).
  unfold run_batch, load_cookies_to_driver. hush.
Qed.

End LifecycleFacts.

(** X13.  In every environment a run closes the browser exactly when
    it has started one: either [setup_driver] did not complete and
    [quit] is never called, or it completed for a driver, and [quit] is
    called once, on that driver, as the last primitive call of the run,
    also when the batch raised. *)
Theorem run_quits_the_browser_it_started
  {W : Type} `{Env W} (w : W) :
  let o := run_streak_bot w in
  (count setup_done (trace o) = 0 /\ count is_quit (trace o) = 0)
  \/ (exists pre d mid r,
         calls (trace o)
         = pre ++ EvCall (ExecuteCdpCmd d
                            "Page.addScriptToEvaluateOnNewDocument")
                         (Val tt)
               :: mid ++ [EvCall (Quit d) r]
         /\ count setup_done (trace o) = 1
         /\ count is_quit (trace o) = 1).
Proof.
  intro o. remember (run_streak_bot w) as o' eqn:Eo. subst o.
  unfold run_streak_bot, load_cookies, load_users, setup_driver,
    close_browser, critical_error, log_activity, logger, exn_is, call, emit,
    ret, raise, try_finally, try_except, bind in Eo.
  destruct (handle Now w) as [[now|e] w0]; cbn [result world trace] in Eo.
  2:{ subst o'. left; split; reflexivity. }
  destruct (handle (ReadCookies COOKIES_FILE) w0) as [[cookies|[c]] w1];
    cbn [result world trace] in Eo.
  2:{ destruct (String.eqb c "FileNotFoundError");
      [|destruct (String.eqb c "JSONDecodeError")];
      cbn [result world trace] in Eo; subst o';
      (left; split; reflexivity). }
  destruct (handle (ReadLines USERS_FILE) w1) as [[lines|[c]] w2];
    cbn [result world trace] in Eo.
  2:{ destruct (String.eqb c "FileNotFoundError");
      cbn [result world trace] in Eo; subst o';
      (left; split; reflexivity). }
  destruct (load_users_lines lines) as [|u us] eqn:Eu;
    cbn [result world trace] in Eo.
  { subst o'. left; split; reflexivity. }
  destruct (handle Chrome w2) as [[d|e] w3]; cbn [result world trace] in Eo.
  2:{ subst o'. left; split; reflexivity. }
  destruct (handle (ExecuteCdpCmd d "Page.addScriptToEvaluateOnNewDocument")
                   w3) as [[[]|e] w4]; cbn [result world trace] in Eo.
  2:{ subst o'. left; split; reflexivity. }
  pose proof (quiet_lifecycle_batch d cookies (u :: us) w4) as Hq.
  apply lifecycle_counts in Hq. destruct Hq as [Hq1 Hq2].
  destruct (run_batch d cookies (u :: us) w4) as [[[]|e] wb tb];
    cbn [result world trace] in Eo, Hq1, Hq2;
    destruct (handle (Quit d) wb) as [[[]|e'] wq];
    cbn [result world trace] in Eo; subst o'; cbn [result trace];
    right;
    exists [EvCall Now (Val now);
            EvCall (ReadCookies COOKIES_FILE) (Val cookies);
            EvCall (ReadLines USERS_FILE) (Val lines);
            EvCall Chrome (Val d)], d, (calls tb);
    eexists;
    (split; [unfold calls; rewrite ?filter_app; cbn [filter is_call app];
             rewrite ?filter_app; cbn [filter is_call app];
             rewrite ?app_nil_r; reflexivity |]);
    (split; count_norm; lia).
Qed.

(** X14.  When the cookie file or, after it, the account file cannot be
    read, the run stops there: it starts no browser, writes the critical
    error with the exception to the activity log, and returns normally to
    its caller. *)
Theorem unreadable_config_stops_the_run
  {W : Type} `{Env W} (w w0 w1 : W) (now : datetime) (e : exn) :
  handle Now w = (Val now, w0) ->
  (handle (ReadCookies COOKIES_FILE) w0 = (Raise e, w1)
   \/ exists cookies w',
       handle (ReadCookies COOKIES_FILE) w0 = (Val cookies, w')
       /\ handle (ReadLines USERS_FILE) w' = (Raise e, w1)) ->
  let o := run_streak_bot w in
  result o = Val tt
  /\ world o = w1
  /\ count is_setup (trace o) = 0
  /\ filter is_activity (trace o)
     = [EvActivity INFO (rule 70) [];
        EvActivity INFO "DAILY RUN STARTED - {datetime.now()}" [ATime now];
        EvActivity INFO (rule 70) [];
        EvActivity ERROR "Critical error: {e}" [AExn e];
        EvActivity ERROR "{traceback.format_exc()}" [AExn e]].
Proof.
  intros Hnow Hcfg o. remember (run_streak_bot w) as o' eqn:Eo. subst o.
  unfold run_streak_bot, load_cookies, load_users, setup_driver,
    close_browser, critical_error, log_activity, logger, exn_is, call, emit,
    ret, raise, try_finally, try_except, bind in Eo.
  rewrite Hnow in Eo. cbn [result world trace] in Eo.
  destruct Hcfg as [Hc|(cookies & w' & Hc & Hl)].
  - rewrite Hc in Eo. destruct e as [c]. cbn [result world trace] in Eo.
    destruct (String.eqb c "FileNotFoundError");
      [|destruct (String.eqb c "JSONDecodeError")];
      cbn [result world trace] in Eo; subst o';
      repeat split; reflexivity.
  - rewrite Hc in Eo. cbn [result world trace] in Eo.
    rewrite Hl in Eo. destruct e as [c]. cbn [result world trace] in Eo.
    destruct (String.eqb c "FileNotFoundError");
      cbn [result world trace] in Eo; subst o';
      repeat split; reflexivity.
Qed.

Lemma unreadable_config_stops_the_run_witness :
  result (run_streak_bot no_cookie_file) = Val tt
  /\ count is_setup (trace (run_streak_bot no_cookie_file)) = 0
  /\ result (run_streak_bot no_user_file) = Val tt
  /\ count is_setup (trace (run_streak_bot no_user_file)) = 0.
Proof.
  destruct (@unreadable_config_stops_the_run site site_env
              no_cookie_file no_cookie_file no_cookie_file noon
              (Exn "FileNotFoundError") eq_refl (or_introl eq_refl))
    as (Hr & _ & Hs & _).
  destruct (@unreadable_config_stops_the_run site site_env
              no_user_file no_user_file no_user_file noon
              (Exn "FileNotFoundError") eq_refl
              (or_intror (ex_intro _ [] (ex_intro _ no_user_file
                                          (conj eq_refl eq_refl)))))
    as (Hr' & _ & Hs' & _).
  repeat split; assumption.
Defined.



(** ** Pauses of a batch *)

Section PauseFacts.
Context {W : Type} `{Env W}.

Lemma pauses_are_markers (t : list event) :
  filter is_pause (markers t) = filter is_pause t.
Proof.
  unfold markers. induction t as [|ev t IH]; cbn [filter]; auto.
  destruct (is_marker ev) eqn:Em; cbn [filter]; rewrite IH; auto.
  assert (Es : is_pause ev = false).
  { destruct ev as [A o r|l tpl args|l tpl args|tpl args|dur]; auto. }
  rewrite Es. reflexivity.
Qed.

Lemma pauses_in_failed_attempts (u : pystr) (c : nat) :
  forall i, filter is_pause (failed_attempts u i c) = [].
Proof. induction c as [|c IH]; intro i; cbn; auto. Qed.

Lemma pauses_in_outcome (u : pystr) (k : nat) (ok : bool) :
  filter is_pause (outcome_markers u k ok) = [].
Proof.
  unfold outcome_markers. rewrite filter_app, pauses_in_failed_attempts.
  destruct ok; reflexivity.
Qed.

Lemma pauses_in_batch (users : list pystr) :
  forall todo outcomes,
    List.length outcomes = List.length todo ->
    List.length (filter is_pause (batch_markers users (combine todo outcomes)))
    = List.length (filter (fun u => negb (str_eqb u (last users []))) todo).
Proof.
  induction todo as [|u rest IH]; intros outcomes Hl; [reflexivity|].
  destruct outcomes as [|[k ok] outs]; [discriminate|].
  cbn [combine batch_markers flat_map fst snd].
  fold (batch_markers users (combine rest outs)).
  rewrite !filter_app, pauses_in_outcome, !length_app.
  rewrite IH by (cbn in Hl; lia).
  cbn [filter app List.length]. unfold pause_after.
  destruct (negb (str_eqb u (last users []))); reflexivity.
Qed.

Lemma last_is_not_counted (users : list pystr) :
  List.length (filter (fun u => negb (str_eqb u (last users []))) users)
  + Nat.min 1 (List.length users) <= List.length users.
Proof.
  destruct users as [|a l]; [reflexivity|].
  assert (Hne : a :: l <> []) by discriminate.
  destruct (exists_last Hne) as (l' & z & E). rewrite E.
  rewrite last_last, filter_app, !length_app.
  cbn [filter List.length]. unfold str_eqb at 2.
  destruct (list_eq_dec N.eq_dec z z) as [_|C]; [|contradiction].
  cbn [negb List.length].
  pose proof (filter_length_le (fun u => negb (str_eqb u z)) l').
  lia.
Qed.

End PauseFacts.

(** X16.  A batch pauses once for every account whose handle differs
    from the handle of the last account, and so at most as many times as
    there are accounts but one. *)
Theorem batch_pauses_are_counted
  {W : Type} `{Env W} (d : driver) (users : list pystr) (w : W) :
  let o := users_loop d users users 0 0 w in
  count is_pause (trace o)
  = List.length (filter (fun u => negb (str_eqb u (last users []))) users)
  /\ count is_pause (trace o) + Nat.min 1 (List.length users)
     <= List.length users.
Proof.
  intro o.
  destruct (users_loop_markers d users users 0 0 w)
    as (outs & Hl & _ & Hm & _).
  fold o in Hm.
  assert (Hc : count is_pause (trace o)
               = List.length (filter (fun u =>
                                        negb (str_eqb u (last users [])))
                                     users)).
  { unfold count. rewrite <- pauses_are_markers, Hm.
    apply pauses_in_batch. exact Hl. }
  split; [exact Hc|]. rewrite Hc. apply last_is_not_counted.
Qed.

(** ** The scheduler *)

Section TurnFacts.
Context {W : Type} `{Env W}.

Lemma ends_one : ends_with_minute_sleep [EvSleep (Millis 60000)].
Proof. exists []. reflexivity. Qed.

Lemma ends_cons (ev : event) (t : list event) :
  ends_with_minute_sleep t -> ends_with_minute_sleep (ev :: t).
Proof. intros [pre E]. exists (ev :: pre). rewrite E. reflexivity. Qed.

Lemma ends_app (t1 t2 : list event) :
  ends_with_minute_sleep t2 -> ends_with_minute_sleep (t1 ++ t2).
Proof.
  intros [pre E]. exists (t1 ++ pre). rewrite E, app_assoc. reflexivity.
Qed.

End TurnFacts.

Ltac ends_sleep :=
  repeat first [ apply ends_one | apply ends_app | apply ends_cons ].

(** X17.  For valid times of day and a date before 9999-12-31, the next
    run computed at scheduler start and in the heartbeat is the same
    moment; it has the configured time of day, lies strictly after the
    current time and at most one day after it. *)
Theorem next_run_is_within_a_day (now : datetime) (configured : time) :
  valid_time (tod now) -> valid_time configured ->
  (1 <= date now < MAXORDINAL)%Z ->
  exists next_run,
    next_run_at_start now configured = Val next_run
    /\ next_run_at_heartbeat now configured = Val next_run
    /\ tod next_run = configured
    /\ (0 < elapsed_us next_run now <= 86400000000)%Z.
Proof.
  intros Hn Hc Hd.
  unfold next_run_at_start, next_run_at_heartbeat.
  rewrite (SchedulerFacts.time_lt_us Hn Hc).
  destruct (Z.ltb_spec (us_of_day (tod now)) (us_of_day configured))
    as [Hlt|Hge].
  - exists (datetime_combine (date now) configured).
    repeat split; unfold valid_time, us_of_day, elapsed_us, datetime_combine in *;
      cbn [date tod]; lia.
  - rewrite (SchedulerFacts.add_one_day Hc Hd).
    exists (mk_datetime (date now + 1) configured).
    repeat split; unfold valid_time, us_of_day, elapsed_us in *;
      cbn [date tod]; lia.
Qed.

Lemma next_run_is_within_a_day_witness :
  exists next_run,
    next_run_at_start noon target_time = Val next_run
    /\ next_run_at_heartbeat noon target_time = Val next_run
    /\ tod next_run = target_time
    /\ (0 < elapsed_us next_run noon <= 86400000000)%Z.
Proof.
  apply (@next_run_is_within_a_day noon target_time);
    unfold valid_time, MAXORDINAL; simpl; lia.
Defined.



(** X19.  A scheduler turn that hands a value for [last_check] back to
    the loop, its body having completed or an exception of the body
    having been handled, has the one-minute sleep as its last action,
    and the value is the old [last_check] or a time read at least 900
    seconds after it. *)
Theorem scheduler_turn_paces_the_loop
  {W : Type} `{Env W} (target : time) (last_check last_check' : datetime)
  (w : W) :
  let o := scheduler_turn target last_check w in
  result o = Val last_check' ->
  ends_with_minute_sleep (trace o)
  /\ (last_check' = last_check
      \/ (900000000 <= elapsed_us last_check' last_check)%Z).
Proof.
  intro o. subst o.
  remember (scheduler_turn target last_check w) as o eqn:Eo.
  unfold scheduler_turn, lift_res, sleep, log_activity, logger, call, emit,
    ret, raise, try_except, bind in Eo.
  destruct (handle JobDue w) as [[due|e] w1].
  - assert (Hrun : exists r w2 t2,
               (if due then run_streak_bot else (fun w => Out (Val tt) w []))
                 w1 = Out r w2 t2).
    { destruct ((if due then run_streak_bot
                 else (fun w => Out (Val tt) w [])) w1) as [r w2 t2].
      eauto. }
    destruct Hrun as (r & w2 & t2 & Er). rewrite Er in Eo.
    destruct r as [[]|e].
    + destruct (handle Now w2) as [[now|e] w3].
      * destruct (Z.leb_spec 900000000 (elapsed_us now last_check))
          as [Hge|Hlt].
        -- destruct (next_run_at_heartbeat now target) as [next_run|e];
             subst o; cbn [result trace]; intro E; injection E as E;
             subst last_check'; (split; [cbn [app]; ends_sleep|]); auto.
        -- subst o; cbn [result trace]. intro E; injection E as E.
           split; [cbn [app]; ends_sleep|]. auto.
      * subst o; cbn [result trace]. intro E; injection E as E.
        split; [cbn [app]; ends_sleep|]. auto.
    + subst o; cbn [result trace]. intro E; injection E as E.
      split; [cbn [app]; ends_sleep|]. auto.
  - subst o; cbn [result trace]. intro E; injection E as E.
    split; [cbn [app]; ends_sleep|]. auto.
Qed.

Lemma scheduler_turn_paces_the_loop_witness :
  ends_with_minute_sleep
    (trace (scheduler_turn target_time
              (mk_datetime 739000 (mk_time 11 30 0 0)) idle_noon))
  /\ (noon = mk_datetime 739000 (mk_time 11 30 0 0)
      \/ (900000000
          <= elapsed_us noon (mk_datetime 739000 (mk_time 11 30 0 0)))%Z).
Proof.
  apply (@scheduler_turn_paces_the_loop site site_env target_time
           (mk_datetime 739000 (mk_time 11 30 0 0)) noon idle_noon).
  vm_compute. reflexivity.
Defined.
